(** * Trade quotes and hop execution: a shallow embedding

    The development follows three source files of the repository:

    - the Arbitrum bridge quote provider ([getTradeQuote]),
    - the trade-quote selectors of the redux store
      ([state/slices/tradeQuoteSlice/selectors.ts]),
    - the hop execution hook ([useTradeExecution.tsx]).

    Conventions of the embedding.

    - A decimal string (an amount in base units, a rate, a price) is
      modelled by the number it denotes: a [BigNumber], that is a
      mantissa and a count of decimal places, as [bignumber.js] keeps
      it.  An absent or non-numeric string is [None].
    - A JS object used as a dictionary is a [gmap].
    - An awaited call into a collaborator that is not part of the
      modelled code is replaced by its outcome, passed as an argument.
    - Event handlers return the list of effects they perform, in order.
    - A selector of another slice is read as a field of the store that
      holds what it returns.

    The three files import functions of the repository whose source is
    not among them.  The small ones ([bn], [bnOrZero], [fromBaseUnit],
    [getHopByIndex], [makeSwapErrorRight]) are given the meaning their
    call sites rely on; [getEnabledSwappers], [validateQuoteRequest],
    [translate] and the table of default slippages are parameters; the
    helpers whose behaviour decides a property are modelled from the
    specification and say so in their comment. *)

From Stdlib Require Import ZArith Lia Bool.
From stdpp Require Import base option list sorting gmap fin_maps fin_sets strings countable.

Local Open Scope string_scope.
Local Open Scope list_scope.
Local Open Scope Z_scope.

(** ** Decimal numbers *)

(** [mantissa * 10 ^ (- scale)]. *)
Record BigNumber := mkBigNumber { mantissa : Z; scale : nat }.

#[global] Instance BigNumber_eq_dec : EqDecision BigNumber.
Proof. solve_decision. Defined.

(** Trailing zeros of the fraction are dropped, as [bignumber.js] does
    after every operation. *)
Fixpoint normalise (m : Z) (s : nat) : BigNumber :=
  match s with
  | O => mkBigNumber m O
  | S s' => if (m mod 10 =? 0) then normalise (m / 10) s' else mkBigNumber m s
  end.

(** [bn(n)] for an integer [n]. *)
Definition bn (n : Z) : BigNumber := mkBigNumber n O.

(** [bnOrZero(x)]: the number [x] denotes, zero when there is none. *)
Definition bnOrZero (x : option BigNumber) : BigNumber :=
  match x with
  | Some v => v
  | None => bn 0
  end.

(** [x.gt(0)]. *)
Definition bn_gt0 (x : BigNumber) : bool := 0 <? mantissa x.

(** [x.plus(y)]: both mantissas are brought to the larger scale. *)
Definition bn_plus (x y : BigNumber) : BigNumber :=
  let s := Nat.max (scale x) (scale y) in
  normalise (mantissa x * 10 ^ Z.of_nat (s - scale x)
             + mantissa y * 10 ^ Z.of_nat (s - scale y)) s.

(** [x.times(y)]. *)
Definition bn_times (x y : BigNumber) : BigNumber :=
  normalise (mantissa x * mantissa y) (scale x + scale y).

(** [fromBaseUnit(x, precision)]: [x] divided by [10 ^ precision]. *)
Definition fromBaseUnit (x : BigNumber) (precision : nat) : BigNumber :=
  normalise (mantissa x) (scale x + precision).

(** ** Swappers, assets, quotes *)

(** The [SwapperName] enumeration.  The source names two of its members;
    the others are kept by their string value. *)
Inductive SwapperName :=
  | CowSwap
  | ArbitrumBridge
  | OtherSwapper (name : string).

#[global] Instance SwapperName_eq_dec : EqDecision SwapperName.
Proof. solve_decision. Defined.

#[global] Instance SwapperName_countable : Countable SwapperName.
Proof.
  refine (inj_countable'
    (fun s => match s with
              | CowSwap => inl ()
              | ArbitrumBridge => inr (inl ())
              | OtherSwapper n => inr (inr n)
              end)
    (fun x => match x with
              | inl _ => CowSwap
              | inr (inl _) => ArbitrumBridge
              | inr (inr n) => OtherSwapper n
              end) _).
  by intros [].
Defined.

Record Asset := mkAsset {
  assetId : string;
  chainId : string;
  precision : nat
}.

#[global] Instance Asset_eq_dec : EqDecision Asset.
Proof. solve_decision. Defined.

Record FeeData := mkFeeData {
  protocolFees : gmap string BigNumber;
  networkFeeCryptoBaseUnit : option BigNumber
}.

#[global] Instance FeeData_eq_dec : EqDecision FeeData.
Proof. solve_decision. Defined.

Record TradeQuoteStep := mkTradeQuoteStep {
  estimatedExecutionTimeMs : Z;
  allowanceContract : string;
  stepRate : BigNumber;
  buyAsset : Asset;
  sellAsset : Asset;
  accountNumber : nat;
  buyAmountBeforeFeesCryptoBaseUnit : BigNumber;
  buyAmountAfterFeesCryptoBaseUnit : BigNumber;
  sellAmountIncludingProtocolFeesCryptoBaseUnit : BigNumber;
  feeData : FeeData;
  source : SwapperName
}.

#[global] Instance TradeQuoteStep_eq_dec : EqDecision TradeQuoteStep.
Proof. solve_decision. Defined.

(** The tag an Arbitrum bridge quote carries on top of a [TradeQuote]. *)
Inductive Direction := deposit | withdrawal.

#[global] Instance Direction_eq_dec : EqDecision Direction.
Proof. solve_decision. Defined.

Record TradeQuote := mkTradeQuote {
  quoteId : string;
  receiveAddress : string;
  affiliateBps : BigNumber;
  potentialAffiliateBps : BigNumber;
  rate : BigNumber;
  slippageTolerancePercentageDecimal : BigNumber;
  steps : list TradeQuoteStep;
  direction : option Direction
}.

#[global] Instance TradeQuote_eq_dec : EqDecision TradeQuote.
Proof. solve_decision. Defined.

(** [isArbitrumBridgeTradeQuote]: ['direction' in quote]. *)
Definition isArbitrumBridgeTradeQuote (quote : option TradeQuote) : bool :=
  match quote with
  | Some q => bool_decide (is_Some (direction q))
  | None => false
  end.

(** ** The Arbitrum bridge quote provider *)

Inductive Result (T E : Type) :=
  | Ok (t : T)
  | Err (e : E).
Arguments Ok {T E} t.
Arguments Err {T E} e.

Inductive TradeQuoteError :=
  | UnsupportedTradePair
  | InsufficientLiquidity
  | NetworkFeeEstimationFailed
  | ValidationFailed.

Record SwapErrorRight := mkSwapErrorRight {
  err_message : string;
  err_cause : option string;
  err_code : TradeQuoteError
}.

Definition makeSwapErrorRight (m : string) (c : option string) (k : TradeQuoteError) :
  SwapErrorRight := mkSwapErrorRight m c k.

Record GetEvmTradeQuoteInput := mkGetEvmTradeQuoteInput {
  in_chainId : string;
  in_sellAsset : Asset;
  in_buyAsset : Asset;
  in_accountNumber : nat;
  in_supportsEIP1559 : bool;
  in_receiveAddress : string;
  in_sellAmountIncludingProtocolFeesCryptoBaseUnit : BigNumber;
  in_sendAddress : option string
}.

(** What [fetchArbitrumBridgeSwap] resolves to. *)
Record ArbitrumBridgeSwap := mkArbitrumBridgeSwap {
  swap_allowanceContract : string;
  swap_networkFeeCryptoBaseUnit : option BigNumber
}.

(** The chain id of Ethereum mainnet. *)
Definition ethChainId : string := "eip155:1".

Section ArbitrumBridgeQuote.

(** [getDefaultSlippageDecimalPercentageForSwapper], a table of constants. *)
Variable getDefaultSlippageDecimalPercentageForSwapper : option SwapperName -> BigNumber.

(** [getTradeQuote].  [assertion] is what [assertValidTrade] resolved
    to, [swap] what [fetchArbitrumBridgeSwap] did ([inr] is the error
    it threw) and [uuid] the identifier drawn for the quote. *)
Definition getTradeQuote
    (input : GetEvmTradeQuoteInput)
    (assertion : Result unit SwapErrorRight)
    (swap : ArbitrumBridgeSwap + string)
    (uuid : string) : Result TradeQuote SwapErrorRight :=
  match assertion with
  | Err e => Err e
  | Ok _ =>
    let isDeposit := bool_decide (chainId (in_sellAsset input) = ethChainId) in
    let estimatedExecutionTimeMs :=
      if isDeposit then 15 * 60 * 1000 else 7 * 24 * 60 * 60 * 1000 in
    let rate := bn 1 in
    match swap with
    | inl swap =>
      let buyAmountBeforeFeesCryptoBaseUnit :=
        in_sellAmountIncludingProtocolFeesCryptoBaseUnit input in
      let buyAmountAfterFeesCryptoBaseUnit :=
        in_sellAmountIncludingProtocolFeesCryptoBaseUnit input in
      Ok {| quoteId := uuid;
            receiveAddress := in_receiveAddress input;
            affiliateBps := bn 0;
            potentialAffiliateBps := bn 0;
            rate := rate;
            slippageTolerancePercentageDecimal :=
              getDefaultSlippageDecimalPercentageForSwapper (Some ArbitrumBridge);
            steps :=
              [ {| estimatedExecutionTimeMs := estimatedExecutionTimeMs;
                   allowanceContract := swap_allowanceContract swap;
                   stepRate := rate;
                   buyAsset := in_buyAsset input;
                   sellAsset := in_sellAsset input;
                   accountNumber := in_accountNumber input;
                   buyAmountBeforeFeesCryptoBaseUnit := buyAmountBeforeFeesCryptoBaseUnit;
                   buyAmountAfterFeesCryptoBaseUnit := buyAmountAfterFeesCryptoBaseUnit;
                   sellAmountIncludingProtocolFeesCryptoBaseUnit :=
                     in_sellAmountIncludingProtocolFeesCryptoBaseUnit input;
                   feeData :=
                     {| protocolFees := ∅;
                        networkFeeCryptoBaseUnit := swap_networkFeeCryptoBaseUnit swap |};
                   source := ArbitrumBridge |} ];
            direction := Some (if isDeposit then deposit else withdrawal) |}
    | inr err =>
      Err (makeSwapErrorRight
             "[ArbitrumBridge: tradeQuote] - failed to get fee data"
             (Some err)
             NetworkFeeEstimationFailed)
    end
  end.

End ArbitrumBridgeQuote.

(** ** The trade-quote slice of the store *)

Inductive TradeQuoteRequestError :=
  | NoQuotesAvailable
  | OtherRequestError (name : string).

Inductive TradeQuoteWarning :=
  | UnsafeQuote
  | OtherWarning (name : string).

Record ErrorWithMeta (E : Type) := mkErrorWithMeta {
  error : E;
  meta : option string
}.
Arguments mkErrorWithMeta {E} error meta.
Arguments error {E} e.
Arguments meta {E} e.

(** One response of a swapper: a quote, errors, warnings. *)
Record ApiQuote := mkApiQuote {
  quote : option TradeQuote;
  errors : list (ErrorWithMeta TradeQuoteError);
  warnings : list (ErrorWithMeta TradeQuoteWarning)
}.

Record ActiveQuoteMeta := mkActiveQuoteMeta {
  swapperName : SwapperName;
  identifier : string
}.

#[global] Instance ActiveQuoteMeta_eq_dec : EqDecision ActiveQuoteMeta.
Proof. solve_decision. Defined.

(** The lifecycle of a hop. *)
Inductive HopLifecycle :=
  | Idle
  | AwaitingSignature
  | Broadcasting
  | Confirming
  | Succeeded
  | Failed.

#[global] Instance HopLifecycle_eq_dec : EqDecision HopLifecycle.
Proof. solve_decision. Defined.

Record HopExecutionMetadata := mkHopExecutionMetadata {
  hopState : HopLifecycle;
  sellTxHash : option string;
  buyTxHash : option string;
  hopMessage : option string
}.

#[global] Instance HopExecutionMetadata_eq_dec : EqDecision HopExecutionMetadata.
Proof. solve_decision. Defined.

Record TradeExecutionMetadata := mkTradeExecutionMetadata {
  firstHop : HopExecutionMetadata;
  secondHop : HopExecutionMetadata
}.

#[global] Instance TradeExecutionMetadata_eq_dec : EqDecision TradeExecutionMetadata.
Proof. solve_decision. Defined.

Record TradeQuoteSliceState := mkTradeQuoteSliceState {
  activeQuoteMeta : option ActiveQuoteMeta;
  confirmedQuote : option TradeQuote;
  activeStep : option nat;
  tradeQuotes : gmap SwapperName (gmap string ApiQuote);
  tradeExecution : TradeExecutionMetadata
}.

Record MarketData := mkMarketData {
  price : option BigNumber
}.

(** The store.  Next to the trade-quote slice it holds what the
    selectors of the other slices return: the selectors below read those
    values only. *)
Record ReduxState := mkReduxState {
  tradeQuoteSlice : TradeQuoteSliceState;
  selectFeatureFlags : gmap string bool;
  selectInputSellAmountCryptoBaseUnit : option BigNumber;
  selectIsWalletConnected : bool;
  selectWalletConnectedChainIds : list string;
  selectManualReceiveAddress : option string;
  selectSellAssetBalanceCryptoBaseUnit : BigNumber;
  selectInputSellAsset : Asset;
  selectInputBuyAsset : Asset;
  selectFeeAssetById : gmap string Asset;
  selectMarketDataUserCurrency : gmap string MarketData
}.

(** The argument of [validateQuoteRequest]. *)
Record ValidateQuoteRequestInput := mkValidateQuoteRequestInput {
  v_isWalletConnected : bool;
  v_walletConnectedChainIds : list string;
  v_manualReceiveAddress : option string;
  v_sellAssetBalanceCryptoBaseUnit : BigNumber;
  v_sellAmountCryptoBaseUnit : option BigNumber;
  v_sellAsset : Asset;
  v_buyAsset : Asset
}.

(** [Object.values] and [Object.keys] of a dictionary. *)
Definition Object_values {K V : Type} `{Countable K} (o : gmap K V) : list V :=
  (map_to_list o).*2.

Definition Object_keys {K V : Type} `{Countable K} (o : gmap K V) : list K :=
  (map_to_list o).*1.

(** [x.minus(y)] and [x.lt(y)]. *)
Definition bn_minus (x y : BigNumber) : BigNumber :=
  bn_plus x (mkBigNumber (- mantissa y) (scale y)).

Definition bn_lt (x y : BigNumber) : bool := bn_gt0 (bn_minus y x).

(** [getHopByIndex(quote, stepIndex)]. *)
Definition getHopByIndex (quote : option TradeQuote) (stepIndex : nat) : option TradeQuoteStep :=
  match quote with
  | None => None
  | Some q => steps q !! stepIndex
  end.

(** ** Ranking and the default selection *)

(** Modelled from the spec: an entry of the ranking, which the helpers
    exchange with the selectors.  A route of the aggregate state
    together with the pointer (swapper, identifier) under which the
    state holds it. *)
Record RankedQuote := mkRankedQuote {
  rankedMeta : ActiveQuoteMeta;
  rankedQuote : TradeQuote
}.

(** Modelled from the spec: the aggregate state read as a list, every
    response with its pointer, swapper by swapper. *)
Definition flattenTradeQuotes (tradeQuotes : gmap SwapperName (gmap string ApiQuote)) :
  list (ActiveQuoteMeta * ApiQuote) :=
  '(name, responses) ← map_to_list tradeQuotes;
  '(ident, response) ← map_to_list responses;
  [(mkActiveQuoteMeta name ident, response)].

(** Modelled from the spec: the resolved routes, that is the responses
    that hold a route; the others are excluded from the ranking. *)
Definition resolvedRoutes (tradeQuotes : gmap SwapperName (gmap string ApiQuote)) :
  list RankedQuote :=
  omap (fun '(m, response) => mkRankedQuote m <$> quote response)
       (flattenTradeQuotes tradeQuotes).

Section Ranking.

(** The value, in the common reference currency, of an amount given in
    base units of an asset.  For a network fee the asset is the sell
    asset of the hop, in whose fee asset the fee is paid. *)
Variable referenceValue : Asset -> BigNumber -> BigNumber.

(** [Object.values(SwapperName)]: the fixed enumeration of the swappers. *)
Variable swapperNames : list SwapperName.

(** Modelled from the spec: the total network fee across all hops, in
    the reference currency. *)
Definition totalNetworkFeeReferenceValue (q : TradeQuote) : BigNumber :=
  foldr (fun hop acc =>
           bn_plus (referenceValue (sellAsset hop)
                      (bnOrZero (networkFeeCryptoBaseUnit (feeData hop)))) acc)
        (bn 0) (steps q).

(** Modelled from the spec: the buy amount after fees of the route,
    that of its last hop, in the reference currency. *)
Definition buyAmountAfterFeesReferenceValue (q : TradeQuote) : BigNumber :=
  match list.last (steps q) with
  | Some hop => referenceValue (buyAsset hop) (buyAmountAfterFeesCryptoBaseUnit hop)
  | None => bn 0
  end.

(** Modelled from the spec: the effective received value. *)
Definition effectiveReceivedValue (q : TradeQuote) : BigNumber :=
  bn_minus (buyAmountAfterFeesReferenceValue q) (totalNetworkFeeReferenceValue q).

(** Modelled from the spec: the total estimated execution time. *)
Definition totalEstimatedExecutionTimeMs (q : TradeQuote) : Z :=
  foldr (fun hop acc => estimatedExecutionTimeMs hop + acc) 0 (steps q).

(** Modelled from the spec: the place of a provider in the fixed
    enumeration. *)
Definition providerIndex (name : SwapperName) : nat :=
  match list_find (fun n => n = name) swapperNames with
  | Some (i, _) => i
  | None => length swapperNames
  end.

(** Modelled from the spec: the order of the ranking.  [x] is ranked
    no later than [y]. *)
Definition ranksBefore (x y : RankedQuote) : bool :=
  let vx := effectiveReceivedValue (rankedQuote x) in
  let vy := effectiveReceivedValue (rankedQuote y) in
  let tx := totalEstimatedExecutionTimeMs (rankedQuote x) in
  let ty := totalEstimatedExecutionTimeMs (rankedQuote y) in
  if bn_lt vy vx then true
  else if bn_lt vx vy then false
  else if tx <? ty then true
  else if ty <? tx then false
  else (providerIndex (swapperName (rankedMeta x))
        <=? providerIndex (swapperName (rankedMeta y)))%nat.

(** Modelled from the spec: [sortTradeQuotes] of
    [state/slices/tradeQuoteSlice/helpers], the ranking layer.  Every
    resolved route is valued at its buy amount after fees minus its
    total network fee, both in the reference currency; the routes are
    sorted by descending value, then ascending total estimated execution
    time, then provider enumeration order.  Responses without a route
    are left out. *)
Definition sortTradeQuotes (tradeQuotes : gmap SwapperName (gmap string ApiQuote)) :
  list RankedQuote :=
  merge_sort (fun x y => Is_true (ranksBefore x y)) (resolvedRoutes tradeQuotes).

End Ranking.

(** Modelled from the spec: [getActiveQuoteMetaOrDefault] of
    [state/slices/tradeQuoteSlice/helpers].  The pinned pointer when it
    still resolves to a route of the aggregate state, else the top of
    the ranking, else nothing. *)
Definition getActiveQuoteMetaOrDefault
    (activeQuoteMeta : option ActiveQuoteMeta)
    (sortedQuotes : list RankedQuote) : option ActiveQuoteMeta :=
  let top := rankedMeta <$> list.head sortedQuotes in
  match activeQuoteMeta with
  | Some pinned =>
    if bool_decide (pinned ∈ rankedMeta <$> sortedQuotes) then Some pinned else top
  | None => top
  end.

(** Modelled from the spec: [getHopTotalNetworkFeeUserCurrencyPrecision]
    of [state/slices/tradeQuoteSlice/helpers].  The network fee of a hop
    in the common currency: the fee in base units, brought to the
    precision of the fee asset, times the rate of the fee asset.  No
    fee, no value. *)
Definition getHopTotalNetworkFeeUserCurrencyPrecision
    (networkFeeCryptoBaseUnit : option BigNumber)
    (feeAsset : Asset)
    (getFeeAssetRate : unit -> BigNumber) : option BigNumber :=
  match networkFeeCryptoBaseUnit with
  | None => None
  | Some fee => Some (bn_times (fromBaseUnit fee (precision feeAsset)) (getFeeAssetRate ()))
  end.

(** ** The selectors *)

Section Selectors.

(** [Object.values(SwapperName)]. *)
Variable swapperNames : list SwapperName.

(** [getEnabledSwappers(featureFlags, isCrossAccountTrade)] of
    [state/helpers]: a flag for every swapper. *)
Variable getEnabledSwappers : gmap string bool -> bool -> SwapperName -> bool.

(** [validateQuoteRequest] of [state/apis/swapper/helpers]. *)
Variable validateQuoteRequest :
  ValidateQuoteRequestInput -> list (ErrorWithMeta TradeQuoteRequestError).

(** The currency conversion the ranking layer uses. *)
Variable referenceValue : Asset -> BigNumber -> BigNumber.

Definition selectTradeQuoteSlice (state : ReduxState) : TradeQuoteSliceState :=
  tradeQuoteSlice state.

Definition selectActiveQuoteMeta (state : ReduxState) : option ActiveQuoteMeta :=
  activeQuoteMeta (selectTradeQuoteSlice state).

Definition selectTradeQuotes (state : ReduxState) : gmap SwapperName (gmap string ApiQuote) :=
  tradeQuotes (selectTradeQuoteSlice state).

Definition selectEnabledSwappersIgnoringCrossAccountTrade (state : ReduxState) :
  list SwapperName :=
  let enabledSwappers := getEnabledSwappers (selectFeatureFlags state) false in
  filter (fun swapperName => Is_true (enabledSwappers swapperName)) swapperNames.

Definition selectIsSwapperResponseAvailable (state : ReduxState) : gmap SwapperName bool :=
  let tradeQuotes := selectTradeQuotes state in
  foldl (fun acc swapperName =>
           let swapperResponse := tradeQuotes !! swapperName in
           <[swapperName := bool_decide (is_Some swapperResponse)]> acc)
        ∅ (selectEnabledSwappersIgnoringCrossAccountTrade state).

Definition selectIsSwapperQuoteAvailable (state : ReduxState) : gmap SwapperName bool :=
  let tradeQuotes := selectTradeQuotes state in
  foldl (fun acc swapperName =>
           let swapperResponse := tradeQuotes !! swapperName in
           <[swapperName :=
               match swapperResponse with
               | None => false
               | Some responses =>
                 existsb (fun swapperQuote => bool_decide (is_Some (quote swapperQuote)))
                         (Object_values responses)
               end]> acc)
        ∅ (selectEnabledSwappersIgnoringCrossAccountTrade state).

Definition selectTradeQuoteRequestErrors (state : ReduxState) :
  list (ErrorWithMeta TradeQuoteRequestError) :=
  let inputSellAmountCryptoBaseUnit := selectInputSellAmountCryptoBaseUnit state in
  let hasUserEnteredAmount := bn_gt0 (bnOrZero inputSellAmountCryptoBaseUnit) in
  if negb hasUserEnteredAmount then []
  else
    let topLevelValidationErrors :=
      validateQuoteRequest
        {| v_isWalletConnected := selectIsWalletConnected state;
           v_walletConnectedChainIds := selectWalletConnectedChainIds state;
           v_manualReceiveAddress := selectManualReceiveAddress state;
           v_sellAssetBalanceCryptoBaseUnit := selectSellAssetBalanceCryptoBaseUnit state;
           v_sellAmountCryptoBaseUnit := inputSellAmountCryptoBaseUnit;
           v_sellAsset := selectInputSellAsset state;
           v_buyAsset := selectInputBuyAsset state |} in
    topLevelValidationErrors.

Definition selectTradeQuoteResponseErrors (state : ReduxState) :
  list (ErrorWithMeta TradeQuoteRequestError) :=
  let inputSellAmountCryptoBaseUnit := selectInputSellAmountCryptoBaseUnit state in
  let swappersApiTradeQuotes := selectTradeQuotes state in
  let enabledSwappers := selectEnabledSwappersIgnoringCrossAccountTrade state in
  let hasUserEnteredAmount := bn_gt0 (bnOrZero inputSellAmountCryptoBaseUnit) in
  if negb hasUserEnteredAmount then []
  else
    let numSwappers := length enabledSwappers in
    if (length (Object_values swappersApiTradeQuotes) <? numSwappers)%nat then []
    else if forallb (fun quotes => (length (Object_keys quotes) =? 0)%nat)
                    (Object_values swappersApiTradeQuotes)
    then [ {| error := NoQuotesAvailable; meta := None |} ]
    else [].

Definition selectSortedTradeQuotes (state : ReduxState) : list RankedQuote :=
  sortTradeQuotes referenceValue swapperNames (selectTradeQuotes state).

Definition selectActiveStepOrDefault (state : ReduxState) : nat :=
  default 0%nat (activeStep (selectTradeQuoteSlice state)).

Definition selectConfirmedQuote (state : ReduxState) : option TradeQuote :=
  confirmedQuote (selectTradeQuoteSlice state).

Definition selectActiveQuoteMetaOrDefault (state : ReduxState) : option ActiveQuoteMeta :=
  getActiveQuoteMetaOrDefault (selectActiveQuoteMeta state) (selectSortedTradeQuotes state).

(** [tradeQuotes[swapperName]?.[identifier]]. *)
Definition lookupQuote (tradeQuotes : gmap SwapperName (gmap string ApiQuote))
    (m : ActiveQuoteMeta) : option ApiQuote :=
  match tradeQuotes !! swapperName m with
  | None => None
  | Some responses => responses !! identifier m
  end.

Definition selectActiveSwapperName (state : ReduxState) : option SwapperName :=
  let activeQuoteMetaOrDefault := selectActiveQuoteMetaOrDefault state in
  let tradeQuotes := selectTradeQuotes state in
  match activeQuoteMetaOrDefault with
  | None => None
  | Some m =>
    match lookupQuote tradeQuotes m with
    | Some _ => Some (swapperName m)
    | None => None
    end
  end.

Definition selectActiveSwapperApiResponse (state : ReduxState) : option ApiQuote :=
  let tradeQuotes := selectTradeQuotes state in
  let activeQuoteMeta := selectActiveQuoteMetaOrDefault state in
  match activeQuoteMeta with
  | None => None
  | Some m => lookupQuote tradeQuotes m
  end.

Definition selectActiveQuote (state : ReduxState) : option TradeQuote :=
  let response := selectActiveSwapperApiResponse state in
  let confirmedQuote := selectConfirmedQuote state in
  match confirmedQuote with
  | Some confirmed => Some confirmed
  | None =>
    match response with
    | Some r => quote r
    | None => None
    end
  end.

Definition selectIsLastStep (state : ReduxState) : bool :=
  let activeStep := selectActiveStepOrDefault state in
  match selectActiveQuote state with
  | Some tradeQuote => bool_decide (Z.of_nat (length (steps tradeQuote)) - 1 = Z.of_nat activeStep)
  | None => false
  end.

Definition selectFirstHop (state : ReduxState) : option TradeQuoteStep :=
  getHopByIndex (selectActiveQuote state) 0.

Definition selectLastHop (state : ReduxState) : option TradeQuoteStep :=
  match selectActiveQuote state with
  | None => None
  | Some q =>
    match length (steps q) with
    | O => None
    | S stepIndex => getHopByIndex (Some q) stepIndex
    end
  end.

Definition selectSecondHop (state : ReduxState) : option TradeQuoteStep :=
  getHopByIndex (selectActiveQuote state) 1.

Definition selectFirstHopSellAsset (state : ReduxState) : option Asset :=
  sellAsset <$> selectFirstHop state.

Definition selectSecondHopSellAsset (state : ReduxState) : option Asset :=
  sellAsset <$> selectSecondHop state.

Definition selectLastHopSellAsset (state : ReduxState) : option Asset :=
  sellAsset <$> selectLastHop state.

(** [selectFeeAssetById(state, asset?.assetId ?? '')]. *)
Definition feeAssetOf (state : ReduxState) (asset : option Asset) : option Asset :=
  selectFeeAssetById state !! default "" (assetId <$> asset).

Definition selectFirstHopSellFeeAsset (state : ReduxState) : option Asset :=
  feeAssetOf state (selectFirstHopSellAsset state).

Definition selectSecondHopSellFeeAsset (state : ReduxState) : option Asset :=
  feeAssetOf state (selectSecondHopSellAsset state).

Definition selectLastHopSellFeeAsset (state : ReduxState) : option Asset :=
  feeAssetOf state (selectLastHopSellAsset state).

Definition selectNetworkFeeRequiresBalance (state : ReduxState) : bool :=
  let swapperName := selectActiveSwapperName state in
  negb (bool_decide (swapperName = Some CowSwap)).

Definition selectFirstHopNetworkFeeCryptoBaseUnit (state : ReduxState) : option BigNumber :=
  selectFirstHop state ≫= fun hop => networkFeeCryptoBaseUnit (feeData hop).

Definition selectSecondHopNetworkFeeCryptoBaseUnit (state : ReduxState) : option BigNumber :=
  selectSecondHop state ≫= fun hop => networkFeeCryptoBaseUnit (feeData hop).

Definition selectLastHopNetworkFeeCryptoBaseUnit (state : ReduxState) : option BigNumber :=
  selectLastHop state ≫= fun hop => networkFeeCryptoBaseUnit (feeData hop).

(** The body shared by the three [...NetworkFeeCryptoPrecision] selectors. *)
Definition networkFeeCryptoPrecision (networkFeeRequiresBalance : bool)
    (sellFeeAsset : option Asset) (networkFeeCryptoBaseUnit : option BigNumber) : BigNumber :=
  match networkFeeRequiresBalance, sellFeeAsset with
  | true, Some feeAsset => fromBaseUnit (bnOrZero networkFeeCryptoBaseUnit) (precision feeAsset)
  | _, _ => bn 0
  end.

Definition selectFirstHopNetworkFeeCryptoPrecision (state : ReduxState) : BigNumber :=
  networkFeeCryptoPrecision (selectNetworkFeeRequiresBalance state)
    (selectFirstHopSellFeeAsset state) (selectFirstHopNetworkFeeCryptoBaseUnit state).

Definition selectSecondHopNetworkFeeCryptoPrecision (state : ReduxState) : BigNumber :=
  networkFeeCryptoPrecision (selectNetworkFeeRequiresBalance state)
    (selectSecondHopSellFeeAsset state) (selectSecondHopNetworkFeeCryptoBaseUnit state).

Definition selectLastHopNetworkFeeCryptoPrecision (state : ReduxState) : BigNumber :=
  networkFeeCryptoPrecision (selectNetworkFeeRequiresBalance state)
    (selectLastHopSellFeeAsset state) (selectLastHopNetworkFeeCryptoBaseUnit state).

(** The body shared by the two [...NetworkFeeUserCurrencyPrecision]
    selectors.  [Err] is the error the selector throws. *)
Definition networkFeeUserCurrencyPrecision
    (tradeQuoteStep : option TradeQuoteStep) (feeAsset : option Asset)
    (marketData : gmap string MarketData) : Result (option BigNumber) string :=
  match tradeQuoteStep with
  | None => Ok None
  | Some step =>
    match feeAsset with
    | None => Err ("missing fee asset for assetId " +:+ assetId (sellAsset step))
    | Some feeAsset =>
      let getFeeAssetUserCurrencyRate := fun _ : unit =>
        default (bn 0) (marketData !! assetId feeAsset ≫= price) in
      Ok (getHopTotalNetworkFeeUserCurrencyPrecision
            (networkFeeCryptoBaseUnit (feeData step)) feeAsset getFeeAssetUserCurrencyRate)
    end
  end.

Definition selectFirstHopNetworkFeeUserCurrencyPrecision (state : ReduxState) :
  Result (option BigNumber) string :=
  networkFeeUserCurrencyPrecision (selectFirstHop state) (selectFirstHopSellFeeAsset state)
    (selectMarketDataUserCurrency state).

Definition selectSecondHopNetworkFeeUserCurrencyPrecision (state : ReduxState) :
  Result (option BigNumber) string :=
  networkFeeUserCurrencyPrecision (selectSecondHop state) (selectSecondHopSellFeeAsset state)
    (selectMarketDataUserCurrency state).


Definition selectTotalNetworkFeeUserCurrencyPrecision (state : ReduxState) :
  Result BigNumber string :=
  match selectFirstHopNetworkFeeUserCurrencyPrecision state with
  | Err e => Err e
  | Ok firstHopNetworkFeeUserCurrencyPrecision =>
    match selectSecondHopNetworkFeeUserCurrencyPrecision state with
    | Err e => Err e
    | Ok secondHopNetworkFeeUserCurrencyPrecision =>
      Ok (bn_plus (bnOrZero firstHopNetworkFeeUserCurrencyPrecision)
                  (default (bn 0) secondHopNetworkFeeUserCurrencyPrecision))
    end
  end.

Definition selectHopExecutionMetadata (state : ReduxState) (hopIndex : nat) :
  HopExecutionMetadata :=
  let swappers := selectTradeQuoteSlice state in
  if bool_decide (hopIndex = 0%nat)
  then firstHop (tradeExecution swappers)
  else secondHop (tradeExecution swappers).

End Selectors.

(** ** Hop execution *)

(** The actions of the trade-quote slice the hook creates. *)
Inductive Action :=
  | setSwapTxPending (hopIndex : nat)
  | setSwapTxMessage (hopIndex : nat) (message : option string)
  | setSwapTxFailed (hopIndex : nat)
  | setSwapSellTxHash (hopIndex : nat) (sellTxHash : string)
  | setSwapBuyTxHash (hopIndex : nat) (buyTxHash : string)
  | setSwapTxComplete (hopIndex : nat).

#[global] Instance Action_eq_dec : EqDecision Action.
Proof. solve_decision. Defined.

(** A thrown or reported value: what the hook reads of it is its message. *)
Record JsError := mkJsError { errorMessage : option string }.

#[global] Instance JsError_eq_dec : EqDecision JsError.
Proof. solve_decision. Defined.

(** The events of a [TradeExecution], with their payloads. *)
Inductive TradeExecutionEvent :=
  | SellTxHash (sellTxHash : string)
  | Status (buyTxHash : option string) (message : option string)
  | Success
  | Fail (e : option JsError)
  | Error (e : option JsError).

(** The four ways a hop is signed and sent. *)
Inductive Strategy :=
  | execEvmMessage
  | execEvmTransaction
  | execUtxoTransaction
  | execCosmosSdkTransaction.

#[global] Instance Strategy_eq_dec : EqDecision Strategy.
Proof. solve_decision. Defined.

(** What a handler or the hook does, in order. *)
Inductive Effect :=
  | Dispatch (a : Action)
  | ShowErrorToast (e : option JsError)
  | Resolve
  | Exec (s : Strategy).

#[global] Instance Effect_eq_dec : EqDecision Effect.
Proof. solve_decision. Defined.

(** The chain namespace of a chain id: the three members of
    [CHAIN_NAMESPACE], or a value outside the enumeration. *)
Inductive ChainNamespace :=
  | Evm
  | Utxo
  | CosmosSdk
  | OtherNamespace (name : string).

(** The truth value of an optional string. *)
Definition truthy (s : option string) : bool :=
  match s with
  | None => false
  | Some s => negb (bool_decide (s = ""))
  end.

(** Modelled from the spec: [assertUnreachable] of [lib/utils], the
    default of an exhaustive match.  Reaching it is a fatal error. *)
Definition assertUnreachable {T : Type} (x : string) : Result T string :=
  Err ("unhandled case: " +:+ x).

Section TradeExecution.

(** [translate] of [react-polyglot]. *)
Variable translate : string -> string.

Variable hopIndex : nat.

(** [onFail]. *)
Definition onFail (e : option JsError) : list Effect :=
  let message := match e with Some e => errorMessage e | None => None end in
  [ Dispatch (setSwapTxMessage hopIndex message);
    Dispatch (setSwapTxFailed hopIndex);
    ShowErrorToast e;
    Resolve ].

(** One event reaching the listeners [executeTrade] registers.  [txHash]
    is the variable the listeners share; the result is its new value and
    what the listener did. *)
Definition onEvent (txHash : option string) (ev : TradeExecutionEvent) :
  option string * list Effect :=
  match ev with
  | SellTxHash sellTxHash =>
    (Some sellTxHash, [ Dispatch (setSwapSellTxHash hopIndex sellTxHash) ])
  | Status buyTxHash message =>
    match buyTxHash with
    | Some hash =>
      if truthy buyTxHash
      then
        (* the action is created and dropped: nothing dispatches it *)
        let _ := setSwapBuyTxHash hopIndex hash in
        (Some hash, [ Dispatch (setSwapTxMessage hopIndex message) ])
      else (txHash, [ Dispatch (setSwapTxMessage hopIndex message) ])
    | None => (txHash, [ Dispatch (setSwapTxMessage hopIndex message) ])
    end
  | Success =>
    if negb (truthy txHash)
    then (txHash, [ ShowErrorToast (Some (mkJsError (Some "missing txHash"))); Resolve ])
    else
      (txHash,
       [ Dispatch (setSwapTxMessage hopIndex (Some (translate "trade.transactionSuccessful")));
         Dispatch (setSwapTxComplete hopIndex);
         Resolve ])
  | Fail e => (txHash, onFail e)
  | Error e => (txHash, onFail e)
  end.

(** The events of one execution, in the order they are emitted. *)
Fixpoint onEvents (txHash : option string) (events : list TradeExecutionEvent) :
  option string * list Effect :=
  match events with
  | [] => (txHash, [])
  | ev :: rest =>
    let '(txHash1, done1) := onEvent txHash ev in
    let '(txHash2, done2) := onEvents txHash1 rest in
    (txHash2, done1 ++ done2)
  end.

(** The strategy the hook selects: the [if] on the swapper, then the
    [switch] on the chain namespace. *)
Definition selectStrategy (swapperName : SwapperName)
    (stepSellAssetChainNamespace : ChainNamespace) : Result Strategy string :=
  if bool_decide (swapperName = CowSwap) then Ok execEvmMessage
  else
    match stepSellAssetChainNamespace with
    | Evm => Ok execEvmTransaction
    | Utxo => Ok execUtxoTransaction
    | CosmosSdk => Ok execCosmosSdkTransaction
    | OtherNamespace name => assertUnreachable name
    end.

(** The selected branch up to its call into the [TradeExecution]. *)
Definition runStrategy (accountType : option string) (s : Strategy) :
  Result (list Effect) string :=
  match s with
  | execUtxoTransaction =>
    match accountType with
    | None => Err "Missing UTXO account type"
    | Some _ => Ok [ Exec execUtxoTransaction ]
    end
  | _ => Ok [ Exec s ]
  end.

Definition dispatchHop (swapperName : SwapperName)
    (stepSellAssetChainNamespace : ChainNamespace) (accountType : option string) :
  Result (list Effect) string :=
  match selectStrategy swapperName stepSellAssetChainNamespace with
  | Err e => Err e
  | Ok s => runStrategy accountType s
  end.

End TradeExecution.

(** ** The reducers of the slice *)

(** Modelled from the spec: the hop record an action with a [hopIndex]
    is about.  The first for index 0, the second otherwise, as
    [selectHopExecutionMetadata] reads them. *)
Definition updateHop (hopIndex : nat)
    (f : HopExecutionMetadata -> HopExecutionMetadata)
    (t : TradeExecutionMetadata) : TradeExecutionMetadata :=
  if bool_decide (hopIndex = 0%nat)
  then {| firstHop := f (firstHop t); secondHop := secondHop t |}
  else {| firstHop := firstHop t; secondHop := f (secondHop t) |}.

(** Modelled from the spec: the reducers of [tradeQuoteSlice] for the
    actions of the hook.  The state of a hop holds its lifecycle state,
    its last known sell and buy transaction identifiers and its last
    status message; every action sets, for the hop of its index, the
    field it names.  [setSwapTxPending] starts the hop, which then
    awaits its signature; [setSwapTxComplete] and [setSwapTxFailed] end
    it. *)
Definition hopReducer (a : Action) (h : HopExecutionMetadata) : HopExecutionMetadata :=
  match a with
  | setSwapTxPending _ =>
    {| hopState := AwaitingSignature; sellTxHash := sellTxHash h;
       buyTxHash := buyTxHash h; hopMessage := hopMessage h |}
  | setSwapTxMessage _ message =>
    {| hopState := hopState h; sellTxHash := sellTxHash h;
       buyTxHash := buyTxHash h; hopMessage := message |}
  | setSwapTxFailed _ =>
    {| hopState := Failed; sellTxHash := sellTxHash h;
       buyTxHash := buyTxHash h; hopMessage := hopMessage h |}
  | setSwapSellTxHash _ hash =>
    {| hopState := hopState h; sellTxHash := Some hash;
       buyTxHash := buyTxHash h; hopMessage := hopMessage h |}
  | setSwapBuyTxHash _ hash =>
    {| hopState := hopState h; sellTxHash := sellTxHash h;
       buyTxHash := Some hash; hopMessage := hopMessage h |}
  | setSwapTxComplete _ =>
    {| hopState := Succeeded; sellTxHash := sellTxHash h;
       buyTxHash := buyTxHash h; hopMessage := hopMessage h |}
  end.

(** The [hopIndex] of the payload of an action. *)
Definition actionHopIndex (a : Action) : nat :=
  match a with
  | setSwapTxPending i | setSwapTxMessage i _ | setSwapTxFailed i
  | setSwapSellTxHash i _ | setSwapBuyTxHash i _ | setSwapTxComplete i => i
  end.

(** Modelled from the spec: the reducer of the slice on the actions of
    the hook.  Only the execution state of the hop changes. *)
Definition tradeQuoteSliceReducer (s : TradeQuoteSliceState) (a : Action) :
  TradeQuoteSliceState :=
  {| activeQuoteMeta := activeQuoteMeta s;
     confirmedQuote := confirmedQuote s;
     activeStep := activeStep s;
     tradeQuotes := tradeQuotes s;
     tradeExecution := updateHop (actionHopIndex a) (hopReducer a) (tradeExecution s) |}.

(** The store with another trade-quote slice. *)
Definition withTradeQuoteSlice (state : ReduxState) (slice : TradeQuoteSliceState) :
  ReduxState :=
  {| tradeQuoteSlice := slice;
     selectFeatureFlags := selectFeatureFlags state;
     selectInputSellAmountCryptoBaseUnit := selectInputSellAmountCryptoBaseUnit state;
     selectIsWalletConnected := selectIsWalletConnected state;
     selectWalletConnectedChainIds := selectWalletConnectedChainIds state;
     selectManualReceiveAddress := selectManualReceiveAddress state;
     selectSellAssetBalanceCryptoBaseUnit := selectSellAssetBalanceCryptoBaseUnit state;
     selectInputSellAsset := selectInputSellAsset state;
     selectInputBuyAsset := selectInputBuyAsset state;
     selectFeeAssetById := selectFeeAssetById state;
     selectMarketDataUserCurrency := selectMarketDataUserCurrency state |}.

(** [dispatch(action)] on the store. *)
Definition dispatch (state : ReduxState) (a : Action) : ReduxState :=
  withTradeQuoteSlice state (tradeQuoteSliceReducer (tradeQuoteSlice state) a).

(** The store after a list of effects: only dispatched actions reach it. *)
Definition perform (state : ReduxState) (effects : list Effect) : ReduxState :=
  foldl (fun st eff => match eff with Dispatch a => dispatch st a | _ => st end)
        state effects.

(** A later write to the aggregate state and to the pointer of the
    active quote: both are replaced, the rest of the store is kept. *)
Definition withAggregate (state : ReduxState)
    (quotes : gmap SwapperName (gmap string ApiQuote))
    (pointer : option ActiveQuoteMeta) : ReduxState :=
  withTradeQuoteSlice state
    {| activeQuoteMeta := pointer;
       confirmedQuote := confirmedQuote (tradeQuoteSlice state);
       activeStep := activeStep (tradeQuoteSlice state);
       tradeQuotes := quotes;
       tradeExecution := tradeExecution (tradeQuoteSlice state) |}.

(** ** Sample data *)

Definition sampleEth : Asset :=
  {| assetId := "eip155:1/slip44:60"; chainId := "eip155:1"; precision := 18 |}.

Definition sampleArbEth : Asset :=
  {| assetId := "eip155:42161/slip44:60"; chainId := "eip155:42161"; precision := 18 |}.

Definition sampleUsdc : Asset :=
  {| assetId := "eip155:1/erc20:usdc"; chainId := "eip155:1"; precision := 6 |}.

Definition sampleInput : GetEvmTradeQuoteInput :=
  {| in_chainId := "eip155:1";
     in_sellAsset := sampleEth;
     in_buyAsset := sampleArbEth;
     in_accountNumber := 0;
     in_supportsEIP1559 := true;
     in_receiveAddress := "0xreceive";
     in_sellAmountIncludingProtocolFeesCryptoBaseUnit := bn 100;
     in_sendAddress := Some "0xsend" |}.

Definition sampleSwap : ArbitrumBridgeSwap :=
  {| swap_allowanceContract := "0x0"; swap_networkFeeCryptoBaseUnit := Some (bn 21000) |}.

Definition sampleSlippage (name : option SwapperName) : BigNumber := mkBigNumber 2 3.

(** A one-hop quote selling USDC on Ethereum with a network fee of
    [fee] base units. *)
Definition sampleQuote (ident : string) (name : SwapperName) (fee : Z) : TradeQuote :=
  {| quoteId := ident;
     receiveAddress := "0xreceive";
     affiliateBps := bn 0;
     potentialAffiliateBps := bn 0;
     rate := bn 2;
     slippageTolerancePercentageDecimal := mkBigNumber 2 3;
     steps :=
       [ {| estimatedExecutionTimeMs := 60000;
            allowanceContract := "0x0";
            stepRate := bn 2;
            buyAsset := sampleEth;
            sellAsset := sampleUsdc;
            accountNumber := 0;
            buyAmountBeforeFeesCryptoBaseUnit := bn 2000;
            buyAmountAfterFeesCryptoBaseUnit := bn 1990;
            sellAmountIncludingProtocolFeesCryptoBaseUnit := bn 1000;
            feeData := {| protocolFees := ∅; networkFeeCryptoBaseUnit := Some (bn fee) |};
            source := name |} ];
     direction := None |}.

Definition sampleHop : HopExecutionMetadata :=
  {| hopState := Idle; sellTxHash := None; buyTxHash := None; hopMessage := None |}.

Definition sampleSucceededHop : HopExecutionMetadata :=
  {| hopState := Succeeded; sellTxHash := Some "0xsell0"; buyTxHash := Some "0xbuy0";
     hopMessage := Some "done" |}.

(** A store with the given aggregate state, pointer, confirmed quote and
    entered amount; ETH is the fee asset of the sample assets and costs
    3 in the user currency. *)
Definition sampleState
    (quotes : gmap SwapperName (gmap string ApiQuote))
    (pointer : option ActiveQuoteMeta)
    (confirmed : option TradeQuote)
    (amount : option BigNumber) : ReduxState :=
  {| tradeQuoteSlice :=
       {| activeQuoteMeta := pointer;
          confirmedQuote := confirmed;
          activeStep := None;
          tradeQuotes := quotes;
          tradeExecution := {| firstHop := sampleSucceededHop; secondHop := sampleHop |} |};
     selectFeatureFlags := ∅;
     selectInputSellAmountCryptoBaseUnit := amount;
     selectIsWalletConnected := true;
     selectWalletConnectedChainIds := ["eip155:1"];
     selectManualReceiveAddress := None;
     selectSellAssetBalanceCryptoBaseUnit := bn 5000;
     selectInputSellAsset := sampleUsdc;
     selectInputBuyAsset := sampleEth;
     selectFeeAssetById :=
       {[ "eip155:1/erc20:usdc" := sampleEth; "eip155:1/slip44:60" := sampleEth ]};
     selectMarketDataUserCurrency :=
       {[ "eip155:1/slip44:60" := {| price := Some (bn 3) |} ]} |}.

Definition sampleSwapperNames : list SwapperName :=
  [CowSwap; ArbitrumBridge; OtherSwapper "THORChain"].

(** Every swapper of the list is enabled but THORChain. *)
Definition sampleEnabledSwappers (flags : gmap string bool) (crossAccount : bool)
    (name : SwapperName) : bool :=
  negb (bool_decide (name = OtherSwapper "THORChain")).

Definition sampleValidate (input : ValidateQuoteRequestInput) :
  list (ErrorWithMeta TradeQuoteRequestError) :=
  if v_isWalletConnected input then []
  else [ {| error := OtherRequestError "NoConnectedWallet"; meta := None |} ].

(** The reference value of the samples: the amount itself. *)
Definition sampleReferenceValue (a : Asset) (amount : BigNumber) : BigNumber := amount.

(** A response holding a quote, and one holding an error only. *)
Definition quoteResponse (q : TradeQuote) : ApiQuote :=
  {| quote := Some q; errors := []; warnings := [] |}.

Definition errorResponse (e : TradeQuoteError) : ApiQuote :=
  {| quote := None; errors := [ {| error := e; meta := None |} ]; warnings := [] |}.

(** An aggregate state: CowSwap answered with a route, the Arbitrum
    bridge with a route and an error. *)
Definition sampleAggregate : gmap SwapperName (gmap string ApiQuote) :=
  {[ CowSwap := {[ "a" := quoteResponse (sampleQuote "a" CowSwap 2000000) ]};
     ArbitrumBridge :=
       {[ "b" := quoteResponse (sampleQuote "b" ArbitrumBridge 10);
          "c" := errorResponse InsufficientLiquidity ]} ]}.

Definition sampleConfirmed : TradeQuote := sampleQuote "confirmed" CowSwap 5.

(** The entered sell amount is zero or there is none. *)
Definition zeroOrAbsent (amount : option BigNumber) : Prop :=
  amount = None ∨ ∃ v, amount = Some v ∧ mantissa v = 0.

(** [NoQuotesAvailable] is among the errors. *)
Definition producesNoQuotesAvailable (errs : list (ErrorWithMeta TradeQuoteRequestError)) :
  Prop :=
  NoQuotesAvailable ∈ error <$> errs.

(** Every swapper of the list has a recorded response. *)
Definition everyAnswered (quotes : gmap SwapperName (gmap string ApiQuote))
    (enabled : list SwapperName) : Prop :=
  Forall (fun name => is_Some (quotes !! name)) enabled.

(** No recorded response of a swapper of the list holds a route. *)
Definition noUsableRoute (quotes : gmap SwapperName (gmap string ApiQuote))
    (enabled : list SwapperName) : Prop :=
  Forall (fun name =>
            Forall (fun response => quote response = None)
                   (Object_values (default ∅ (quotes !! name))))
         enabled.

(** The aggregate state records responses of swappers of the list only. *)
Definition recordsOnly (quotes : gmap SwapperName (gmap string ApiQuote))
    (enabled : list SwapperName) : Prop :=
  Forall (fun name => name ∈ enabled) (Object_keys quotes).

(** An aggregate state in which both enabled swappers of the samples
    answered, each with an error and no route. *)
Definition erroredAggregate : gmap SwapperName (gmap string ApiQuote) :=
  {[ CowSwap := {[ "a" := errorResponse UnsupportedTradePair ]};
     ArbitrumBridge := {[ "b" := errorResponse InsufficientLiquidity ]} ]}.

(** An aggregate state in which both enabled swappers of the samples
    answered with nothing. *)
Definition emptyAggregate : gmap SwapperName (gmap string ApiQuote) :=
  {[ CowSwap := ∅; ArbitrumBridge := ∅ ]}.

#[global] Instance TradeQuoteRequestError_eq_dec : EqDecision TradeQuoteRequestError.
Proof. solve_decision. Defined.

(** An aggregate state in which CowSwap and THORChain, which is not
    enabled in the samples, answered with nothing; the Arbitrum bridge
    has not answered. *)
Definition strayAggregate : gmap SwapperName (gmap string ApiQuote) :=
  {[ CowSwap := ∅; OtherSwapper "THORChain" := ∅ ]}.

(** The route the pinned pointer resolves to in the aggregate state. *)
Definition pinnedRoute (state : ReduxState) : option TradeQuote :=
  match selectActiveQuoteMeta state with
  | None => None
  | Some pointer =>
    match lookupQuote (selectTradeQuotes state) pointer with
    | None => None
    | Some response => quote response
    end
  end.

(** The top route of the ranking. *)
Definition topRankedRoute (swapperNames : list SwapperName)
    (referenceValue : Asset -> BigNumber -> BigNumber) (state : ReduxState) :
  option TradeQuote :=
  rankedQuote <$> list.head (selectSortedTradeQuotes swapperNames referenceValue state).

(** An aggregate state whose only route is a CowSwap route with a
    network fee of two ETH. *)
Definition cowSwapAggregate : gmap SwapperName (gmap string ApiQuote) :=
  {[ CowSwap := {[ "a" := quoteResponse (sampleQuote "a" CowSwap 2000000000000000000) ]} ]}.

(** The same route from the Arbitrum bridge. *)
Definition bridgeAggregate : gmap SwapperName (gmap string ApiQuote) :=
  {[ ArbitrumBridge :=
       {[ "a" := quoteResponse (sampleQuote "a" ArbitrumBridge 2000000000000000000) ]} ]}.

(** An event that shows a transaction identifier to the listeners: a
    sell hash or a buy hash that is not empty. *)
Definition showsTxHash (ev : TradeExecutionEvent) : bool :=
  match ev with
  | SellTxHash sellTxHash => truthy (Some sellTxHash)
  | Status buyTxHash _ => truthy buyTxHash
  | _ => false
  end.

(** An event that shows a buy hash. *)
Definition showsBuyTxHash (ev : TradeExecutionEvent) : bool :=
  match ev with
  | Status buyTxHash _ => truthy buyTxHash
  | _ => false
  end.

(** The message of a reported value, as [onFail] reads it. *)
Definition failureMessage (e : option JsError) : option string :=
  match e with
  | Some e => errorMessage e
  | None => None
  end.

(** The translation of the samples: the key itself. *)
Definition sampleTranslate (key : string) : string := key.

Definition sampleExecutionState : ReduxState :=
  sampleState sampleAggregate None (Some sampleConfirmed) (Some (bn 1000)).

(** A terminal event of an execution. *)
Definition isTerminal (ev : TradeExecutionEvent) : bool :=
  match ev with
  | Success | Fail _ | Error _ => true
  | _ => false
  end.

(** The effects that resolve the promise of [executeTrade]. *)
Definition isResolve (eff : Effect) : bool :=
  match eff with
  | Resolve => true
  | _ => false
  end.

(** An action of the listeners of the hop [hopIndex]: it is about that
    hop, and it is a message, a sell hash, a completion or a failure. *)
Definition listenerAction (hopIndex : nat) (a : Action) : bool :=
  match a with
  | setSwapTxMessage i _ | setSwapSellTxHash i _ | setSwapTxComplete i | setSwapTxFailed i =>
    bool_decide (i = hopIndex)
  | setSwapTxPending _ | setSwapBuyTxHash _ _ => false
  end.

(** An effect of the listeners of the hop [hopIndex]. *)
Definition listenerEffect (hopIndex : nat) (eff : Effect) : bool :=
  match eff with
  | Dispatch a => listenerAction hopIndex a
  | ShowErrorToast _ | Resolve => true
  | Exec _ => false
  end.

(** An event that empties the variable the listeners share. *)
Definition clearsTxHash (ev : TradeExecutionEvent) : bool :=
  match ev with
  | SellTxHash sellTxHash => negb (truthy (Some sellTxHash))
  | _ => false
  end.

(** ** More of the store and of its selectors *)

(** An entry of the display cache of the slice; the selectors read the
    name of its swapper. *)
Record CachedQuote := mkCachedQuote {
  cachedSwapperName : SwapperName;
  cachedQuote : ApiQuote
}.

(** The store together with the rest of what the selectors below read:
    two more fields of the trade-quote slice and what the selectors of
    the swapper api and of the trade input return. *)
Record TradeStore := mkTradeStore {
  store : ReduxState;
  tradeQuoteDisplayCache : list CachedQuote;
  isTradeQuoteRequestAborted : bool;
  selectIsTradeQuoteApiQueryPending : gmap SwapperName bool;
  selectHasUserEnteredAmount : bool;
  selectFirstHopSellAccountId : option string;
  selectSecondHopSellAccountId : option string
}.

(** [Object.entries] of a dictionary. *)
Definition Object_entries {K V : Type} `{Countable K} (o : gmap K V) : list (K * V) :=
  map_to_list o.

Section MoreSelectors.

Variable swapperNames : list SwapperName.
Variable getEnabledSwappers : gmap string bool -> bool -> SwapperName -> bool.
Variable referenceValue : Asset -> BigNumber -> BigNumber.

Definition selectQuoteSellAmountCryptoBaseUnit (state : ReduxState) : option BigNumber :=
  sellAmountIncludingProtocolFeesCryptoBaseUnit
    <$> selectFirstHop swapperNames referenceValue state.

Definition selectQuoteSellAmountCryptoPrecision (state : ReduxState) : option BigNumber :=
  let firstHopSellAsset := selectFirstHopSellAsset swapperNames referenceValue state in
  let sellAmountCryptoBaseUnit := selectQuoteSellAmountCryptoBaseUnit state in
  match firstHopSellAsset with
  | Some asset => Some (fromBaseUnit (bnOrZero sellAmountCryptoBaseUnit) (precision asset))
  | None => None
  end.

Definition selectFirstHopTradeDeductionCryptoPrecision (state : ReduxState) : BigNumber :=
  let firstHopSellFeeAsset := selectFirstHopSellFeeAsset swapperNames referenceValue state in
  let firstHopSellAsset := selectFirstHopSellAsset swapperNames referenceValue state in
  let sellAmountCryptoPrecision := selectQuoteSellAmountCryptoPrecision state in
  if bool_decide (assetId <$> firstHopSellFeeAsset = assetId <$> firstHopSellAsset)
  then bnOrZero sellAmountCryptoPrecision
  else bn 0.

Definition selectIsActiveQuoteMultiHop (state : ReduxState) : option bool :=
  match selectActiveQuote swapperNames referenceValue state with
  | Some q => Some (1 <? length (steps q))%nat
  | None => None
  end.

Definition selectHopSellAccountId (state : TradeStore) (hopIndex : nat) : option string :=
  if bool_decide (hopIndex = 0%nat)
  then selectFirstHopSellAccountId state
  else selectSecondHopSellAccountId state.

Definition selectTradeQuoteDisplayCache (state : TradeStore) : list CachedQuote :=
  tradeQuoteDisplayCache state.

Definition selectIsTradeQuoteRequestAborted (state : TradeStore) : bool :=
  isTradeQuoteRequestAborted state.

Definition selectLoadingSwappers (state : TradeStore) : list SwapperName :=
  let isSwapperQuoteAvailable :=
    selectIsSwapperResponseAvailable swapperNames getEnabledSwappers (store state) in
  let isTradeQuoteApiQueryPending := selectIsTradeQuoteApiQueryPending state in
  let tradeQuoteDisplayCache := selectTradeQuoteDisplayCache state in
  (List.filter
     (fun '(swapperName, isQuoteAvailable) =>
        (negb isQuoteAvailable
         || default false (isTradeQuoteApiQueryPending !! swapperName))
        && negb (existsb
                   (fun quoteData =>
                      bool_decide (cachedSwapperName quoteData = swapperName))
                   tradeQuoteDisplayCache))
     (Object_entries isSwapperQuoteAvailable)).*1.

Definition selectIsAnyTradeQuoteLoading (state : TradeStore) : bool :=
  let loadingSwappers := selectLoadingSwappers state in
  let hasUserEnteredAmount := selectHasUserEnteredAmount state in
  hasUserEnteredAmount && (0 <? length loadingSwappers)%nat.

Definition selectIsAnyTradeQuoteLoaded (state : TradeStore) : bool :=
  let isSwapperQuoteAvailable :=
    selectIsSwapperQuoteAvailable swapperNames getEnabledSwappers (store state) in
  let hasUserEnteredAmount := selectHasUserEnteredAmount state in
  negb hasUserEnteredAmount
  || existsb (fun flag : bool => flag) (Object_values isSwapperQuoteAvailable).

End MoreSelectors.

(** ** Addresses of Bitcoin Cash *)



Section BitcoinCashAddresses.

(** [bchAssetId] of [@shapeshiftoss/caip]. *)
Variable bchAssetId : string.



End BitcoinCashAddresses.

(** ** The market service singleton *)

Record MarketServiceConfig := mkMarketServiceConfig {
  REACT_APP_ETHEREUM_NODE_URL : string;
  REACT_APP_UNCHAINED_ETHEREUM_HTTP_URL : string;
  REACT_APP_UNCHAINED_ETHEREUM_WS_URL : string
}.

Record ProviderUrls := mkProviderUrls {
  jsonRpcProviderUrl : string;
  unchainedEthereumHttpUrl : string;
  unchainedEthereumWsUrl : string
}.

Section MarketServiceSingleton.

(** The providers of [ethers] and the managers of [lib/market-service]. *)
Variable Provider : Type.
Variable MarketServiceManager : Type.

Record MarketServiceManagerArgs := mkMarketServiceManagerArgs {
  yearnChainReference : Z;
  provider : Provider;
  providerUrls : ProviderUrls
}.

(** [getEthersProvider(KnownChainIds.EthereumMainnet)]. *)
Variable ethereumMainnetProvider : Provider.

(** [new MarketServiceManager(args)]. *)
Variable newMarketServiceManager : MarketServiceManagerArgs -> MarketServiceManager.

(** [getMarketServiceManager].  [config] is what [getConfig()] returns
    at the call, [_marketServiceManager] the variable of the module; the
    result is the manager returned and the new value of the variable. *)
Definition getMarketServiceManager (config : MarketServiceConfig)
    (_marketServiceManager : option MarketServiceManager) :
  MarketServiceManager * option MarketServiceManager :=
  match _marketServiceManager with
  | None =>
    let created :=
      newMarketServiceManager
        {| yearnChainReference := 1;
           provider := ethereumMainnetProvider;
           providerUrls :=
             {| jsonRpcProviderUrl := REACT_APP_ETHEREUM_NODE_URL config;
                unchainedEthereumHttpUrl := REACT_APP_UNCHAINED_ETHEREUM_HTTP_URL config;
                unchainedEthereumWsUrl := REACT_APP_UNCHAINED_ETHEREUM_WS_URL config |} |} in
    (created, Some created)
  | Some existing => (existing, Some existing)
  end.

(** A sequence of calls, each with the configuration of its time. *)
Fixpoint getMarketServiceManagers (configs : list MarketServiceConfig)
    (_marketServiceManager : option MarketServiceManager) :
  list MarketServiceManager * option MarketServiceManager :=
  match configs with
  | [] => ([], _marketServiceManager)
  | config :: rest =>
    let '(manager, variable1) := getMarketServiceManager config _marketServiceManager in
    let '(managers, variable2) := getMarketServiceManagers rest variable1 in
    (manager :: managers, variable2)
  end.

End MarketServiceSingleton.

(** ** The wallet selection modal *)

(** The [KeyManager] enumeration: the members the modal names, and the
    others by their string value. *)
Inductive KeyManager :=
  | Ledger
  | Coinbase
  | WalletConnectV2
  | Demo
  | Mobile
  | Native
  | OtherKeyManager (name : string).

#[global] Instance KeyManager_eq_dec : EqDecision KeyManager.
Proof. solve_decision. Defined.

(** [String(x)] for an optional string. *)
Definition String_of (x : option string) : string := default "undefined" x.

(** [['a', 'b'].includes(x)]. *)
Definition includes (l : list string) (x : string) : bool :=
  existsb (fun y => bool_decide (y = x)) l.

(** [isSupported] of [WalletSelectItem].  [isMobileApp] and [isMobile]
    tell where the application runs, [supportsMobile] is that field of
    the wallet's entry in [SUPPORTED_WALLETS]. *)
Definition isSupported (isMobileApp isMobile : bool) (supportsMobile : option string) : bool :=
  if isMobileApp then includes ["both"; "app"] (String_of supportsMobile)
  else if isMobile then includes ["both"; "browser"] (String_of supportsMobile)
  else negb (bool_decide (supportsMobile = Some "app")).

(** What [WalletSelectItem] renders: nothing, or a button that is
    active for the connected wallet. *)
Record WalletButton := mkWalletButton {
  buttonWalletType : KeyManager;
  buttonIsActive : bool;
  buttonSubText : option string
}.

Definition WalletSelectItem
    (isMobileApp isMobile : bool)
    (isLedgerEnabled isCoinbaseEnabled isWalletConnectV2Enabled : bool)
    (walletType : KeyManager)
    (optionName : string) (supportsMobile : option string)
    (walletInfoName : option string) : option WalletButton :=
  if bool_decide (walletType = Ledger) && negb isLedgerEnabled then None
  else if negb (isSupported isMobileApp isMobile supportsMobile) then None
  else if bool_decide (walletType = Coinbase) && negb isCoinbaseEnabled then None
  else if bool_decide (walletType = WalletConnectV2) && negb isWalletConnectV2Enabled
  then None
  else
    let activeWallet := bool_decide (walletInfoName = Some optionName) in
    let walletSubText := if activeWallet then Some "common.connected" else None in
    Some {| buttonWalletType := walletType;
            buttonIsActive := activeWallet;
            buttonSubText := walletSubText |}.

(** The [wallets] of [SelectModal], from [Object.values(KeyManager)]. *)
Definition modalWallets (keyManagers : list KeyManager) : list KeyManager :=
  filter (fun key => key ≠ Demo) keyManagers.

(** The wallet [handleCreate] and [handleImport] ask for. *)
Definition nativeWalletType (isMobileApp : bool) : KeyManager :=
  if isMobileApp then Mobile else Native.

(** ** The parser of Uniswap V2 transactions *)

(** The fields of a transaction the parser reads. *)
Record Tx := mkTx {
  txInputData : option string;
  txConfirmations : Z;
  txFrom : string
}.

(** A decoded call: the name of the function and its arguments, as
    strings. *)
Record TransactionDescription := mkTransactionDescription {
  descriptionName : string;
  descriptionArgs : gmap string string
}.

Record TokenMetadata := mkTokenMetadata {
  tokenContract : string;
  tokenDecimals : Z;
  tokenName : string;
  tokenSymbol : string
}.

(** A transfer of the parser: all of them are of type [Send]. *)
Record SendTransfer := mkSendTransfer {
  transferFrom : string;
  transferTo : string;
  transferAssetId : string;
  transferTotalValue : string;
  transferComponents : list string;
  transferToken : TokenMetadata
}.

Record TxMetadata := mkTxMetadata {
  metadataParser : string;
  metadataMethod : string
}.

Record TxSpecific := mkTxSpecific {
  specificTransfers : option (list SendTransfer);
  specificData : TxMetadata
}.

Record UniV2Parser := mkUniV2Parser {
  parserChainId : string;
  wethContract : string
}.

Section UniV2.

(** The constants of [./constants]. *)
Variable WETH_CONTRACT_MAINNET : string.
Variable WETH_CONTRACT_ROPSTEN : string.
Variable UNI_V2_ROUTER_CONTRACT : string.
Variable UNI_V2_FOX_STAKING_REWARDS_CONTRACTS : list string.

(** The selectors of the supported functions, computed from the ABIs. *)
Variable addLiquidityEthSigHash : string.
Variable removeLiquidityEthSigHash : string.
Variable stakeSigHash : string.
Variable exitSigHash : string.

(** [getSigHash] and [txInteractsWithContract] of [../../parser]. *)
Variable getSigHash : string -> option string.
Variable txInteractsWithContract : Tx -> string -> bool.

(** [parseTransaction] of the two interfaces: nothing when the data
    cannot be decoded. *)
Variable abiParseTransaction : string -> option TransactionDescription.
Variable stakingRewardsParseTransaction : string -> option TransactionDescription.

(** [getAddress], which throws on what is not an address,
    [toLowerCase], [solidityPackedKeccak256] of two addresses,
    [getCreate2Address] and [toAssetId] for an ERC-20 token of the
    chain. *)
Variable getAddress : string -> Result string string.
Variable toLowerCase : string -> string.
Variable solidityPackedKeccak256 : string -> string -> string.
Variable getCreate2Address : string -> string -> string -> string.
Variable toAssetId : string -> string -> string.

(** What the ERC-20 contract at an address answers for [decimals],
    [name] and [symbol], or the error of the call. *)
Variable readToken : string -> Result (Z * string * string) string.

(** The constructor of [Parser]. *)
Definition newParser (chainId : string) : Result UniV2Parser string :=
  if bool_decide (chainId = "eip155:1")
  then Ok {| parserChainId := chainId; wethContract := WETH_CONTRACT_MAINNET |}
  else if bool_decide (chainId = "eip155:3")
  then Ok {| parserChainId := chainId; wethContract := WETH_CONTRACT_ROPSTEN |}
  else Err "chainId is not supported. (supported chainIds: eip155:1, eip155:3)".

(** [Parser.pairFor]. *)
Definition pairFor (tokenA tokenB : string) : string :=
  let '(token0, token1) :=
    if String.ltb tokenA tokenB then (tokenA, tokenB) else (tokenB, tokenA) in
  let factoryContract := "0x5C69bEe701ef814a2B6a3EDD4B1652CB9cc5aA6f" in
  let salt := solidityPackedKeccak256 token0 token1 in
  let initCodeHash :=
    "0x96e8ac4277198ff8b6f785478aa9a39f403cb768dd02cbee326c3e7da348845f" in
  getCreate2Address factoryContract salt initCodeHash.

(** The single transfer of an unconfirmed transaction. *)
Definition sendTransfer (this : UniV2Parser) (tx : Tx) (lpTokenAddress tokenOfTransfer : string)
    (value : string) (token : Z * string * string) : list SendTransfer :=
  let '(decimals, name, symbol) := token in
  [ {| transferFrom := txFrom tx;
       transferTo := lpTokenAddress;
       transferAssetId := toAssetId (parserChainId this) tokenOfTransfer;
       transferTotalValue := value;
       transferComponents := [value];
       transferToken :=
         {| tokenContract := tokenOfTransfer; tokenDecimals := decimals;
            tokenName := name; tokenSymbol := symbol |} |} ].

(** [parseUniV2].  [Err] is an error thrown on the way: a missing
    argument of the decoded call, an invalid address, or a failed call
    to the token. *)
Definition parseUniV2 (this : UniV2Parser) (tx : Tx) : Result (option TxSpecific) string :=
  match txInputData tx with
  | None => Ok None
  | Some inputData =>
    if negb (truthy (Some inputData)) then Ok None
    else
      let txSigHash := getSigHash inputData in
      if negb (existsb (fun hash => bool_decide (Some hash = txSigHash))
                       [addLiquidityEthSigHash; removeLiquidityEthSigHash])
      then Ok None
      else
        match abiParseTransaction inputData with
        | None => Ok None
        | Some decoded =>
          let data := {| metadataParser := "uniV2"; metadataMethod := descriptionName decoded |} in
          if negb (txConfirmations tx =? 0)
          then Ok (Some {| specificTransfers := None; specificData := data |})
          else
            match descriptionArgs decoded !! "token" with
            | None => Err "TypeError"
            | Some token =>
              match getAddress (toLowerCase token) with
              | Err e => Err e
              | Ok tokenAddress =>
              let lpTokenAddress := pairFor tokenAddress (wethContract this) in
              let transfers : Result (option (list SendTransfer)) string :=
                if bool_decide (getSigHash inputData = Some addLiquidityEthSigHash)
                then
                  match readToken tokenAddress with
                  | Err e => Err e
                  | Ok token =>
                    match descriptionArgs decoded !! "amountTokenDesired" with
                    | None => Err "TypeError"
                    | Some value =>
                      Ok (Some (sendTransfer this tx lpTokenAddress tokenAddress value token))
                    end
                  end
                else if bool_decide (getSigHash inputData = Some removeLiquidityEthSigHash)
                then
                  match readToken lpTokenAddress with
                  | Err e => Err e
                  | Ok token =>
                    match descriptionArgs decoded !! "liquidity" with
                    | None => Err "TypeError"
                    | Some value =>
                      Ok (Some (sendTransfer this tx lpTokenAddress lpTokenAddress value token))
                    end
                  end
                else Ok None in
              match transfers with
              | Err e => Err e
              | Ok None => Ok None
              | Ok (Some transfers) =>
                Ok (Some {| specificTransfers := Some transfers; specificData := data |})
              end
              end
            end
        end
  end.



End UniV2.

(** ** The borrow form *)

(** [pattern.test(s)] for a pattern without special characters: [s]
    contains the pattern. *)
Fixpoint containsString (pattern s : string) : bool :=
  String.prefix pattern s
  || match s with
     | EmptyString => false
     | String _ rest => containsString pattern rest
     end.

(** [x.lte(y)]. *)
Definition bn_lte (x y : BigNumber) : bool := negb (bn_lt y x).

(** The two members of [BorrowRoutePaths] the form pushes. *)
Inductive BorrowRoutePaths :=
  | BorrowConfirm
  | BorrowSweep.

Section BorrowInput.

(** The deposit entered, the balance of the collateral account in base
    units, the precision of the collateral asset when the asset is
    known, and the fees of the transaction and of the sweep in base
    units when they have been estimated. *)
Variable cryptoDepositAmount : option BigNumber.
Variable balanceCryptoBaseUnit : option BigNumber.
Variable collateralAssetPrecision : option nat.
Variable txFeeCryptoBaseUnit : option BigNumber.
Variable sweepTxFeeCryptoBaseUnit : option BigNumber.

(** [x.div(bn(10).pow(collateralAsset?.precision ?? '0'))]. *)
Definition toCollateralPrecision (x : BigNumber) : BigNumber :=
  fromBaseUnit x (default 0%nat collateralAssetPrecision).

Definition amountAvailableCryptoPrecision : BigNumber :=
  toCollateralPrecision (bnOrZero balanceCryptoBaseUnit).

Definition hasEnoughBalanceForTx : bool :=
  bn_lte (bn_plus (bnOrZero cryptoDepositAmount)
                  (toCollateralPrecision (bnOrZero txFeeCryptoBaseUnit)))
         amountAvailableCryptoPrecision.

Definition hasEnoughBalanceForTxPlusSweep : bool :=
  bn_lte (bn_plus (bn_plus (bnOrZero cryptoDepositAmount)
                           (toCollateralPrecision (bnOrZero txFeeCryptoBaseUnit)))
                  (toCollateralPrecision (bnOrZero sweepTxFeeCryptoBaseUnit)))
         amountAvailableCryptoPrecision.

(** The [enabled] flag of [isSweepNeededArgs]. *)
Definition isSweepNeededEnabled (isEstimatedFeesDataSuccess : bool) : bool :=
  bn_gt0 (bnOrZero cryptoDepositAmount) && isEstimatedFeesDataSuccess && hasEnoughBalanceForTx.

(** The state of the lending quote query: loading, failed with a
    message, and the same for the fee estimates. *)
Variable isLendingQuoteLoading : bool.
Variable isLendingQuoteError : bool.
Variable lendingQuoteErrorMessage : string.
Variable isEstimatedFeesDataLoading : bool.

Definition quoteErrorTranslation : option string :=
  if negb hasEnoughBalanceForTxPlusSweep then Some "common.insufficientFunds"
  else if isLendingQuoteError
          && (containsString "not enough fee" lendingQuoteErrorMessage
              || containsString "not enough to pay transaction fee" lendingQuoteErrorMessage)
  then Some "trade.errors.amountTooSmallUnknownMinimum"
  else None.

(** The colour of the button, whether it is disabled, and its label
    before translation. *)
Definition buttonColorScheme : string :=
  if negb isLendingQuoteLoading && negb isEstimatedFeesDataLoading
     && (isLendingQuoteError || bool_decide (is_Some quoteErrorTranslation))
  then "red"
  else "blue".

Definition buttonIsDisabled : bool :=
  isLendingQuoteError || bool_decide (is_Some quoteErrorTranslation)
  || isLendingQuoteLoading || isEstimatedFeesDataLoading.

Definition buttonLabel : string := default "lending.borrow" quoteErrorTranslation.

(** The route [onSubmit] pushes. *)
Definition onSubmit (isSweepNeeded : option bool) : BorrowRoutePaths :=
  if negb (default false isSweepNeeded) then BorrowConfirm else BorrowSweep.

End BorrowInput.

(** ** The value of a decimal number *)

(** The mantissa of [x] once [x] is written with [k] decimal places,
    for [k] at least the scale of [x]. *)
Definition scaledTo (k : nat) (x : BigNumber) : Z :=
  mantissa x * 10 ^ Z.of_nat (k - scale x).

(** ** More samples *)

(** The only step of [sampleQuote]. *)
Definition sampleStep (name : SwapperName) (fee : Z) : TradeQuoteStep :=
  {| estimatedExecutionTimeMs := 60000;
     allowanceContract := "0x0";
     stepRate := bn 2;
     buyAsset := sampleEth;
     sellAsset := sampleUsdc;
     accountNumber := 0;
     buyAmountBeforeFeesCryptoBaseUnit := bn 2000;
     buyAmountAfterFeesCryptoBaseUnit := bn 1990;
     sellAmountIncludingProtocolFeesCryptoBaseUnit := bn 1000;
     feeData := {| protocolFees := ∅; networkFeeCryptoBaseUnit := Some (bn fee) |};
     source := name |}.

(** The store of [sampleState] with no fee asset known. *)
Definition sampleStateWithoutFeeAssets
    (quotes : gmap SwapperName (gmap string ApiQuote)) : ReduxState :=
  {| tradeQuoteSlice :=
       {| activeQuoteMeta := None;
          confirmedQuote := None;
          activeStep := None;
          tradeQuotes := quotes;
          tradeExecution := {| firstHop := sampleHop; secondHop := sampleHop |} |};
     selectFeatureFlags := ∅;
     selectInputSellAmountCryptoBaseUnit := Some (bn 1000);
     selectIsWalletConnected := true;
     selectWalletConnectedChainIds := ["eip155:1"];
     selectManualReceiveAddress := None;
     selectSellAssetBalanceCryptoBaseUnit := bn 5000;
     selectInputSellAsset := sampleUsdc;
     selectInputBuyAsset := sampleEth;
     selectFeeAssetById := ∅;
     selectMarketDataUserCurrency := ∅ |}.

(** The quote the Arbitrum bridge returns for [sampleInput]: ETH is
    sold, and ETH is its own fee asset. *)
Definition sampleBridgeQuote : TradeQuote :=
  match getTradeQuote sampleSlippage sampleInput (Ok ()) (inl sampleSwap) "quote-1" with
  | Ok q => q
  | Err _ => sampleConfirmed
  end.

Definition sampleBridgeAggregate : gmap SwapperName (gmap string ApiQuote) :=
  {[ ArbitrumBridge := {[ "quote-1" := quoteResponse sampleBridgeQuote ]} ]}.

(** Calls of the Uniswap V2 router: the selector is the first ten
    characters of the input data; [addLiquidityETH] and
    [removeLiquidityETH] decode to their arguments. *)
Definition sampleAddLiquidityEthSigHash : string := "0xf305d719".

Definition sampleRemoveLiquidityEthSigHash : string := "0x02751cec".

Definition sampleGetSigHash (inputData : string) : option string :=
  Some (String.substring 0 10 inputData).

Definition sampleAbiParseTransaction (inputData : string) : option TransactionDescription :=
  if String.prefix sampleAddLiquidityEthSigHash inputData
  then Some {| descriptionName := "addLiquidityETH";
               descriptionArgs := {[ "token" := "0xfox"; "amountTokenDesired" := "100" ]} |}
  else if String.prefix sampleRemoveLiquidityEthSigHash inputData
  then Some {| descriptionName := "removeLiquidityETH";
               descriptionArgs := {[ "token" := "0xfox"; "liquidity" := "7" ]} |}
  else None.

Definition sampleGetAddress (address : string) : Result string string := Ok address.

Definition sampleToLowerCase (s : string) : string := s.

Definition sampleSolidityPackedKeccak256 (token0 token1 : string) : string :=
  token0 +:+ "," +:+ token1.

Definition sampleGetCreate2Address (factory salt initCodeHash : string) : string :=
  "pair(" +:+ salt +:+ ")".

Definition sampleToAssetId (chain address : string) : string :=
  chain +:+ "/erc20:" +:+ address.

Definition sampleReadToken (address : string) : Result (Z * string * string) string :=
  Ok (18, "Token", "TKN").

Definition sampleParser : UniV2Parser :=
  {| parserChainId := "eip155:1"; wethContract := "0xweth" |}.

Definition sampleTx (inputData : string) (confirmations : Z) : Tx :=
  {| txInputData := Some inputData; txConfirmations := confirmations; txFrom := "0xsender" |}.


(** What the parser returns for an unconfirmed [addLiquidityETH]. *)
Definition sampleUnconfirmedSpec : TxSpecific :=
  match parseUniV2 sampleAddLiquidityEthSigHash sampleRemoveLiquidityEthSigHash
          sampleGetSigHash sampleAbiParseTransaction sampleGetAddress sampleToLowerCase
          sampleSolidityPackedKeccak256 sampleGetCreate2Address sampleToAssetId
          sampleReadToken sampleParser (sampleTx "0xf305d719aa" 0) with
  | Ok (Some spec) => spec
  | _ => {| specificTransfers := None;
            specificData := {| metadataParser := "uniV2"; metadataMethod := "" |} |}
  end.

(** A store around [state] in which an amount is entered, no query is
    pending and the display cache is empty. *)
Definition sampleStore (state : ReduxState) : TradeStore :=
  {| store := state;
     tradeQuoteDisplayCache := [];
     isTradeQuoteRequestAborted := false;
     selectIsTradeQuoteApiQueryPending := ∅;
     selectHasUserEnteredAmount := true;
     selectFirstHopSellAccountId := Some "eip155:1:0xaccount";
     selectSecondHopSellAccountId := None |}.

(** * Properties *)

(** A decidable statement about concrete data, settled by evaluation. *)
Ltac by_evaluation := apply (bool_decide_unpack _); vm_compute; exact I.

(** ** The Arbitrum bridge quote *)

Section ArbitrumBridgeQuoteFacts.

Variable slippage : option SwapperName -> BigNumber.

(** A quote is returned exactly when the trade is valid and the fee
    data could be fetched. *)
Lemma getTradeQuote_Ok_iff input assertion swap uuid :
  (∃ q, getTradeQuote slippage input assertion swap uuid = Ok q)
  ↔ (∃ u s, assertion = Ok u ∧ swap = inl s).
Proof.
  unfold getTradeQuote. split.
  - intros [q Hq]. destruct assertion as [u|e]; [|discriminate].
    destruct swap as [s|err]; [|discriminate]. eauto.
  - intros (u & s & -> & ->). eauto.
Qed.

(** C7: every quote the Arbitrum bridge returns, for any sell amount,
    is a single-hop route of rate "1" (the route and its hop) whose hop
    has both buy amounts, before and after fees, equal to the sell
    amount. *)
Theorem getTradeQuote_one_to_one input assertion swap uuid q :
  getTradeQuote slippage input assertion swap uuid = Ok q →
  rate q = bn 1
  ∧ ∃ hop, steps q = [hop]
      ∧ stepRate hop = bn 1
      ∧ sellAmountIncludingProtocolFeesCryptoBaseUnit hop
        = in_sellAmountIncludingProtocolFeesCryptoBaseUnit input
      ∧ buyAmountBeforeFeesCryptoBaseUnit hop
        = in_sellAmountIncludingProtocolFeesCryptoBaseUnit input
      ∧ buyAmountAfterFeesCryptoBaseUnit hop
        = in_sellAmountIncludingProtocolFeesCryptoBaseUnit input.
Proof.
  unfold getTradeQuote. intros Hq.
  destruct assertion as [u|e]; [|discriminate].
  destruct swap as [s|err]; [|discriminate].
  injection Hq as <-. cbn. split; [reflexivity|].
  eexists. split; [reflexivity|]. cbn. repeat split.
Qed.

End ArbitrumBridgeQuoteFacts.

(** The scenario of the specification: 100 base units sold. *)
Lemma getTradeQuote_one_to_one_witness :
  ∃ q, getTradeQuote sampleSlippage sampleInput (Ok ()) (inl sampleSwap) "quote-1" = Ok q
    ∧ rate q = bn 1
    ∧ ∃ hop, steps q = [hop]
        ∧ stepRate hop = bn 1
        ∧ sellAmountIncludingProtocolFeesCryptoBaseUnit hop = bn 100
        ∧ buyAmountBeforeFeesCryptoBaseUnit hop = bn 100
        ∧ buyAmountAfterFeesCryptoBaseUnit hop = bn 100.
Proof.
  eexists. split; [reflexivity|].
  apply (getTradeQuote_one_to_one sampleSlippage sampleInput (Ok ()) (inl sampleSwap) "quote-1").
  reflexivity.
Defined.

(** ** The confirmed quote *)

Section ConfirmedQuoteFacts.

Variable swapperNames : list SwapperName.
Variable referenceValue : Asset -> BigNumber -> BigNumber.

Lemma selectConfirmedQuote_withAggregate state quotes pointer :
  selectConfirmedQuote (withAggregate state quotes pointer) = selectConfirmedQuote state.
Proof. reflexivity. Qed.

(** C1: while a confirmed quote is set, the active quote is that
    snapshot, whatever is written afterwards to the aggregate state and
    to the pointer of the active quote. *)
Theorem selectActiveQuote_confirmed state snapshot :
  selectConfirmedQuote state = Some snapshot →
  selectActiveQuote swapperNames referenceValue state = Some snapshot
  ∧ ∀ quotes pointer,
      selectActiveQuote swapperNames referenceValue (withAggregate state quotes pointer)
      = Some snapshot.
Proof.
  intros Hc. split.
  - unfold selectActiveQuote. by rewrite Hc.
  - intros quotes pointer. unfold selectActiveQuote.
    by rewrite selectConfirmedQuote_withAggregate, Hc.
Qed.

End ConfirmedQuoteFacts.

Lemma selectActiveQuote_confirmed_witness :
  selectActiveQuote sampleSwapperNames sampleReferenceValue
    (sampleState sampleAggregate None (Some sampleConfirmed) (Some (bn 1000)))
  = Some sampleConfirmed
  ∧ ∀ quotes pointer,
      selectActiveQuote sampleSwapperNames sampleReferenceValue
        (withAggregate
           (sampleState sampleAggregate None (Some sampleConfirmed) (Some (bn 1000)))
           quotes pointer)
      = Some sampleConfirmed.
Proof.
  apply (selectActiveQuote_confirmed sampleSwapperNames sampleReferenceValue
           (sampleState sampleAggregate None (Some sampleConfirmed) (Some (bn 1000)))
           sampleConfirmed).
  reflexivity.
Defined.

(** ** Errors of the request and of the responses *)

Lemma zeroOrAbsent_not_gt0 amount :
  zeroOrAbsent amount → bn_gt0 (bnOrZero amount) = false.
Proof.
  intros [-> | (v & -> & Hv)]; unfold bn_gt0; cbn; [reflexivity|].
  rewrite Hv. reflexivity.
Qed.

Section ErrorSelectorFacts.

Variable swapperNames : list SwapperName.
Variable getEnabledSwappers : gmap string bool -> bool -> SwapperName -> bool.
Variable validateQuoteRequest :
  ValidateQuoteRequestInput -> list (ErrorWithMeta TradeQuoteRequestError).

(** C9: when the entered sell amount is zero or absent, the request
    errors and the response errors are both empty, whatever the wallet,
    the balance and the aggregate state are. *)
Theorem no_errors_without_amount state :
  zeroOrAbsent (selectInputSellAmountCryptoBaseUnit state) →
  selectTradeQuoteRequestErrors validateQuoteRequest state = []
  ∧ selectTradeQuoteResponseErrors swapperNames getEnabledSwappers state = [].
Proof.
  intros Hz. apply zeroOrAbsent_not_gt0 in Hz.
  unfold selectTradeQuoteRequestErrors, selectTradeQuoteResponseErrors.
  rewrite Hz. split; reflexivity.
Qed.

End ErrorSelectorFacts.

Lemma no_errors_without_amount_witness :
  selectTradeQuoteRequestErrors sampleValidate
    (sampleState emptyAggregate None None (Some (bn 0))) = []
  ∧ selectTradeQuoteResponseErrors sampleSwapperNames sampleEnabledSwappers
      (sampleState emptyAggregate None None (Some (bn 0))) = [].
Proof.
  apply (no_errors_without_amount sampleSwapperNames sampleEnabledSwappers sampleValidate
           (sampleState emptyAggregate None None (Some (bn 0)))).
  right. exists (bn 0). split; reflexivity.
Defined.

(** ** [NoQuotesAvailable] *)

Lemma length_Object_values {K V : Type} `{Countable K} (o : gmap K V) :
  length (Object_values o) = size o.
Proof. unfold Object_values. by rewrite length_fmap, length_map_to_list. Qed.

Lemma length_Object_keys {K V : Type} `{Countable K} (o : gmap K V) :
  length (Object_keys o) = size o.
Proof. unfold Object_keys. by rewrite length_fmap, length_map_to_list. Qed.

Lemma elem_of_Object_values {K V : Type} `{Countable K} (o : gmap K V) (v : V) :
  v ∈ Object_values o ↔ ∃ k, o !! k = Some v.
Proof.
  unfold Object_values. rewrite list_elem_of_fmap. split.
  - intros ([k v'] & -> & Hin). exists k. by apply elem_of_map_to_list.
  - intros [k Hk]. exists (k, v). split; [done|]. by apply elem_of_map_to_list.
Qed.

(** The test of the selector on the responses: every one is empty. *)
Lemma every_response_empty (quotes : gmap SwapperName (gmap string ApiQuote)) :
  forallb (fun responses => (length (Object_keys responses) =? 0)%nat) (Object_values quotes)
  = true
  ↔ ∀ name responses, quotes !! name = Some responses → responses = ∅.
Proof.
  rewrite forallb_forall. split.
  - intros Hall name responses Hl.
    assert (Hin : responses ∈ Object_values quotes)
      by (apply elem_of_Object_values; eauto).
    apply list_elem_of_In, Hall, Nat.eqb_eq in Hin.
    rewrite length_Object_keys in Hin. by apply map_size_empty_inv.
  - intros Hall responses Hin. apply list_elem_of_In, elem_of_Object_values in Hin.
    destruct Hin as [name Hl]. rewrite (Hall _ _ Hl).
    reflexivity.
Qed.

(** The count the selector compares: when the recorded swappers are all
    enabled, there are as many responses as enabled swappers exactly
    when every enabled swapper has one. *)
Lemma elem_of_Object_keys {K V : Type} `{Countable K} (o : gmap K V) (k : K) :
  k ∈ Object_keys o ↔ is_Some (o !! k).
Proof.
  unfold Object_keys. rewrite list_elem_of_fmap. split.
  - intros ([k' v] & -> & Hin). exists v. by apply elem_of_map_to_list.
  - intros [v Hv]. exists (k, v). split; [done|]. by apply elem_of_map_to_list.
Qed.

Lemma enough_responses (quotes : gmap SwapperName (gmap string ApiQuote))
    (enabled : list SwapperName) :
  NoDup enabled →
  recordsOnly quotes enabled →
  (length enabled ≤ size quotes)%nat ↔ everyAnswered quotes enabled.
Proof.
  intros Hnd Hsub. unfold recordsOnly in Hsub. rewrite list.Forall_forall in Hsub.
  assert (Hdom : dom quotes ⊆ (list_to_set enabled : gset SwapperName)).
  { intros name Hin. apply elem_of_list_to_set, Hsub, elem_of_Object_keys.
    by apply elem_of_dom. }
  rewrite <- (size_dom (D := gset SwapperName) quotes).
  rewrite <- (size_list_to_set (C := gset SwapperName) enabled Hnd).
  unfold everyAnswered. rewrite list.Forall_forall. split.
  - intros Hle name Hin.
    apply elem_of_dom.
    rewrite (set_subseteq_size_eq _ _ Hdom Hle).
    by apply elem_of_list_to_set.
  - intros Hall. apply subseteq_size. intros name Hin.
    apply elem_of_dom, Hall. by apply elem_of_list_to_set in Hin.
Qed.

Section NoQuotesAvailableFacts.

Variable swapperNames : list SwapperName.
Variable getEnabledSwappers : gmap string bool -> bool -> SwapperName -> bool.

Lemma NoDup_enabledSwappers state :
  NoDup swapperNames →
  NoDup (selectEnabledSwappersIgnoringCrossAccountTrade swapperNames getEnabledSwappers state).
Proof. intros Hnd. unfold selectEnabledSwappersIgnoringCrossAccountTrade. by apply list.NoDup_filter. Qed.

(** The response errors are nothing or [NoQuotesAvailable] alone, and
    the selector decides between them by three tests. *)
Lemma selectTradeQuoteResponseErrors_cases state :
  let enabled :=
    selectEnabledSwappersIgnoringCrossAccountTrade swapperNames getEnabledSwappers state in
  producesNoQuotesAvailable
    (selectTradeQuoteResponseErrors swapperNames getEnabledSwappers state)
  ↔ bn_gt0 (bnOrZero (selectInputSellAmountCryptoBaseUnit state)) = true
    ∧ (length enabled ≤ size (selectTradeQuotes state))%nat
    ∧ ∀ name responses, selectTradeQuotes state !! name = Some responses → responses = ∅.
Proof.
  intros enabled. unfold selectTradeQuoteResponseErrors, producesNoQuotesAvailable.
  fold enabled. rewrite length_Object_values, <- every_response_empty.
  destruct (bn_gt0 _); cbn [negb].
  - destruct (Nat.ltb_spec (size (selectTradeQuotes state)) (length enabled)) as [Hlt|Hge].
    + split; [by intros ?%elem_of_nil | intros (_ & ? & _); lia].
    + destruct (forallb _ _).
      * split; [done | intros _; cbn; apply list_elem_of_here].
      * split; [by intros ?%elem_of_nil | by intros (_ & _ & ?)].
  - split; [by intros ?%elem_of_nil | by intros (? & _)].
Qed.

(** C2, amended: on an aggregate state that records responses of
    enabled swappers only, [NoQuotesAvailable] is produced exactly when
    the entered sell amount is positive, every enabled swapper has a
    recorded response and every recorded response is empty; in
    particular it is not produced while an enabled swapper has no
    recorded response. *)
Theorem noQuotesAvailable_iff state :
  let enabled :=
    selectEnabledSwappersIgnoringCrossAccountTrade swapperNames getEnabledSwappers state in
  NoDup swapperNames →
  recordsOnly (selectTradeQuotes state) enabled →
  (producesNoQuotesAvailable
     (selectTradeQuoteResponseErrors swapperNames getEnabledSwappers state)
   ↔ bn_gt0 (bnOrZero (selectInputSellAmountCryptoBaseUnit state)) = true
     ∧ everyAnswered (selectTradeQuotes state) enabled
     ∧ ∀ name responses, selectTradeQuotes state !! name = Some responses → responses = ∅)
  ∧ (¬ everyAnswered (selectTradeQuotes state) enabled →
     selectTradeQuoteResponseErrors swapperNames getEnabledSwappers state = []).
Proof.
  intros enabled Hnd Hsub.
  pose proof (enough_responses (selectTradeQuotes state) enabled
                (NoDup_enabledSwappers state Hnd) Hsub) as Hcount.
  pose proof (selectTradeQuoteResponseErrors_cases state) as Hcases.
  cbn zeta in Hcases. fold enabled in Hcases.
  split.
  - rewrite Hcases, Hcount. reflexivity.
  - intros Hnot. unfold selectTradeQuoteResponseErrors. fold enabled.
    destruct (negb _); [reflexivity|].
    rewrite length_Object_values.
    destruct (Nat.ltb_spec (size (selectTradeQuotes state)) (length enabled)) as [Hlt|Hge];
      [reflexivity|].
    exfalso. apply Hnot. by apply Hcount.
Qed.

End NoQuotesAvailableFacts.

Lemma noQuotesAvailable_iff_witness :
  let state := sampleState emptyAggregate None None (Some (bn 1000)) in
  let enabled :=
    selectEnabledSwappersIgnoringCrossAccountTrade sampleSwapperNames sampleEnabledSwappers
      state in
  (producesNoQuotesAvailable
     (selectTradeQuoteResponseErrors sampleSwapperNames sampleEnabledSwappers state)
   ↔ bn_gt0 (bnOrZero (selectInputSellAmountCryptoBaseUnit state)) = true
     ∧ everyAnswered (selectTradeQuotes state) enabled
     ∧ ∀ name responses, selectTradeQuotes state !! name = Some responses → responses = ∅)
  ∧ (¬ everyAnswered (selectTradeQuotes state) enabled →
     selectTradeQuoteResponseErrors sampleSwapperNames sampleEnabledSwappers state = []).
Proof.
  apply (noQuotesAvailable_iff sampleSwapperNames sampleEnabledSwappers
           (sampleState emptyAggregate None None (Some (bn 1000)))).
  - by_evaluation.
  - by_evaluation.
Defined.

(** C2, as stated, fails: both enabled swappers have a recorded
    response, neither response holds a route, an amount is entered, and
    [NoQuotesAvailable] is not produced, because the responses hold
    errors. *)
Lemma noQuotesAvailable_not_without_route :
  let state := sampleState erroredAggregate None None (Some (bn 1000)) in
  let enabled :=
    selectEnabledSwappersIgnoringCrossAccountTrade sampleSwapperNames sampleEnabledSwappers
      state in
  everyAnswered (selectTradeQuotes state) enabled
  ∧ noUsableRoute (selectTradeQuotes state) enabled
  ∧ bn_gt0 (bnOrZero (selectInputSellAmountCryptoBaseUnit state)) = true
  ∧ ¬ producesNoQuotesAvailable
        (selectTradeQuoteResponseErrors sampleSwapperNames sampleEnabledSwappers state).
Proof.
  cbv zeta. split; [|split; [|split]].
  - by_evaluation.
  - by_evaluation.
  - reflexivity.
  - by_evaluation.
Qed.

(** With an empty response from each enabled swapper the error is
    produced. *)
Example noQuotesAvailable_on_empty_responses :
  selectTradeQuoteResponseErrors sampleSwapperNames sampleEnabledSwappers
    (sampleState emptyAggregate None None (Some (bn 1000)))
  = [ {| error := NoQuotesAvailable; meta := None |} ].
Proof. reflexivity. Qed.

(** The selector counts responses: a response of a swapper that is not
    enabled stands in for the missing one of an enabled swapper. *)
Example noQuotesAvailable_on_stray_response :
  let state := sampleState strayAggregate None None (Some (bn 1000)) in
  selectTradeQuotes state !! ArbitrumBridge = None
  ∧ ArbitrumBridge
      ∈ selectEnabledSwappersIgnoringCrossAccountTrade sampleSwapperNames
          sampleEnabledSwappers state
  ∧ selectTradeQuoteResponseErrors sampleSwapperNames sampleEnabledSwappers state
    = [ {| error := NoQuotesAvailable; meta := None |} ].
Proof.
  cbv zeta. split; [reflexivity|]. split; [|reflexivity].
  by_evaluation.
Qed.

(** ** The active quote before confirmation *)

Lemma elem_of_flattenTradeQuotes (quotes : gmap SwapperName (gmap string ApiQuote))
    (pointer : ActiveQuoteMeta) (response : ApiQuote) :
  (pointer, response) ∈ flattenTradeQuotes quotes ↔ lookupQuote quotes pointer = Some response.
Proof.
  unfold flattenTradeQuotes, lookupQuote. rewrite list_elem_of_bind. split.
  - intros ([name responses] & Hin & Hname). apply elem_of_map_to_list in Hname.
    apply list_elem_of_bind in Hin as ([ident r] & Hin & Hident).
    apply elem_of_map_to_list in Hident.
    apply list_elem_of_singleton in Hin. injection Hin as -> ->. cbn.
    by rewrite Hname.
  - destruct pointer as [name ident]. cbn.
    destruct (quotes !! name) as [responses|] eqn:Hname; [|done].
    intros Hident. exists (name, responses). split; [|by apply elem_of_map_to_list].
    apply list_elem_of_bind. exists (ident, response).
    split; [apply list_elem_of_here | by apply elem_of_map_to_list].
Qed.

Lemma elem_of_resolvedRoutes (quotes : gmap SwapperName (gmap string ApiQuote))
    (r : RankedQuote) :
  r ∈ resolvedRoutes quotes
  ↔ ∃ response, lookupQuote quotes (rankedMeta r) = Some response
                ∧ quote response = Some (rankedQuote r).
Proof.
  unfold resolvedRoutes. rewrite list_elem_of_omap. split.
  - intros ([pointer response] & Hin & Hr). apply elem_of_flattenTradeQuotes in Hin.
    destruct (quote response) as [q|] eqn:Hq; [|done].
    injection Hr as <-. eauto.
  - intros (response & Hl & Hq). exists (rankedMeta r, response).
    split; [by apply elem_of_flattenTradeQuotes|].
    rewrite Hq. by destruct r.
Qed.

Section ActiveQuoteFacts.

Variable swapperNames : list SwapperName.
Variable referenceValue : Asset -> BigNumber -> BigNumber.

(** The ranking holds the routes of the aggregate state and nothing else. *)
Lemma elem_of_sortTradeQuotes (quotes : gmap SwapperName (gmap string ApiQuote))
    (r : RankedQuote) :
  r ∈ sortTradeQuotes referenceValue swapperNames quotes ↔ r ∈ resolvedRoutes quotes.
Proof. unfold sortTradeQuotes. by rewrite merge_sort_Permutation. Qed.

Lemma sorted_resolves state r :
  r ∈ selectSortedTradeQuotes swapperNames referenceValue state →
  ∃ response, lookupQuote (selectTradeQuotes state) (rankedMeta r) = Some response
              ∧ quote response = Some (rankedQuote r).
Proof.
  unfold selectSortedTradeQuotes. intros Hin.
  by apply elem_of_resolvedRoutes, elem_of_sortTradeQuotes.
Qed.

(** The route the default pointer resolves to is the top of the ranking. *)
Lemma top_resolves state :
  match
    match rankedMeta <$> list.head (selectSortedTradeQuotes swapperNames referenceValue state)
    with
    | Some pointer => lookupQuote (selectTradeQuotes state) pointer
    | None => None
    end
  with
  | Some response => quote response
  | None => None
  end = topRankedRoute swapperNames referenceValue state.
Proof.
  unfold topRankedRoute.
  destruct (list.head _) as [r|] eqn:Hhead; [|reflexivity]. cbn.
  apply head_Some_elem_of, sorted_resolves in Hhead as (response & -> & ->).
  reflexivity.
Qed.

(** C3: with no confirmed quote, the active quote is the route the
    pinned pointer resolves to in the aggregate state when there is
    one, else the top route of the ranking, else nothing. *)
Theorem selectActiveQuote_unconfirmed state :
  selectConfirmedQuote state = None →
  selectActiveQuote swapperNames referenceValue state
  = match pinnedRoute state with
    | Some pinned => Some pinned
    | None => topRankedRoute swapperNames referenceValue state
    end.
Proof.
  intros Hc. unfold selectActiveQuote. rewrite Hc.
  unfold selectActiveSwapperApiResponse, selectActiveQuoteMetaOrDefault,
    getActiveQuoteMetaOrDefault, pinnedRoute.
  pose proof (top_resolves state) as Htop.
  destruct (selectActiveQuoteMeta state) as [pointer|]; [|exact Htop].
  case_bool_decide as Hin.
  - apply list_elem_of_fmap in Hin as (r & -> & Hr).
    apply sorted_resolves in Hr as (response & -> & ->). reflexivity.
  - destruct (lookupQuote (selectTradeQuotes state) pointer) as [response|] eqn:Hl;
      [|exact Htop].
    destruct (quote response) as [q|] eqn:Hq; [|exact Htop].
    exfalso. apply Hin. apply list_elem_of_fmap.
    exists (mkRankedQuote pointer q). split; [reflexivity|].
    unfold selectSortedTradeQuotes.
    apply elem_of_sortTradeQuotes, elem_of_resolvedRoutes. eauto.
Qed.

End ActiveQuoteFacts.

Lemma selectActiveQuote_unconfirmed_witness :
  let state :=
    sampleState sampleAggregate (Some (mkActiveQuoteMeta CowSwap "a")) None (Some (bn 1000)) in
  selectActiveQuote sampleSwapperNames sampleReferenceValue state
  = match pinnedRoute state with
    | Some pinned => Some pinned
    | None => topRankedRoute sampleSwapperNames sampleReferenceValue state
    end.
Proof.
  apply (selectActiveQuote_unconfirmed sampleSwapperNames sampleReferenceValue
           (sampleState sampleAggregate (Some (mkActiveQuoteMeta CowSwap "a")) None
              (Some (bn 1000)))).
  reflexivity.
Defined.

(** The four cases on the sample aggregate state: the bridge route "b"
    ranks first, having the smaller network fee. *)
Example selectActiveQuote_default :
  selectActiveQuote sampleSwapperNames sampleReferenceValue
    (sampleState sampleAggregate None None (Some (bn 1000)))
  = Some (sampleQuote "b" ArbitrumBridge 10).
Proof. vm_compute. reflexivity. Qed.

Example selectActiveQuote_pinned :
  selectActiveQuote sampleSwapperNames sampleReferenceValue
    (sampleState sampleAggregate (Some (mkActiveQuoteMeta CowSwap "a")) None (Some (bn 1000)))
  = Some (sampleQuote "a" CowSwap 2000000).
Proof. vm_compute. reflexivity. Qed.

Example selectActiveQuote_stale_pin :
  selectActiveQuote sampleSwapperNames sampleReferenceValue
    (sampleState sampleAggregate (Some (mkActiveQuoteMeta CowSwap "gone")) None
       (Some (bn 1000)))
  = Some (sampleQuote "b" ArbitrumBridge 10).
Proof. vm_compute. reflexivity. Qed.

Example selectActiveQuote_absent :
  selectActiveQuote sampleSwapperNames sampleReferenceValue
    (sampleState erroredAggregate (Some (mkActiveQuoteMeta CowSwap "a")) None
       (Some (bn 1000)))
  = None.
Proof. vm_compute. reflexivity. Qed.

(** ** Network fees and CowSwap *)

Section NetworkFeeFacts.

Variable swapperNames : list SwapperName.
Variable referenceValue : Asset -> BigNumber -> BigNumber.

Lemma selectNetworkFeeRequiresBalance_CowSwap state :
  selectActiveSwapperName swapperNames referenceValue state = Some CowSwap →
  selectNetworkFeeRequiresBalance swapperNames referenceValue state = false.
Proof. intros H. unfold selectNetworkFeeRequiresBalance. rewrite H. reflexivity. Qed.

Lemma selectNetworkFeeRequiresBalance_other state name :
  selectActiveSwapperName swapperNames referenceValue state = Some name →
  name ≠ CowSwap →
  selectNetworkFeeRequiresBalance swapperNames referenceValue state = true.
Proof.
  intros H Hne. unfold selectNetworkFeeRequiresBalance. rewrite H.
  rewrite bool_decide_eq_false_2; [reflexivity|]. intros [= ->]. by apply Hne.
Qed.

(** The fee asset of a hop: that of its sell asset. *)
Lemma feeAssetOf_hop state (hop : TradeQuoteStep) :
  feeAssetOf state (sellAsset <$> Some hop)
  = selectFeeAssetById state !! assetId (sellAsset hop).
Proof. reflexivity. Qed.

(** C10, amended: when the active swapper is CowSwap the network fees
    in crypto precision of the first, second and last hop are "0"
    whatever fees the hops of the quote carry; for any other active
    swapper the fee of a hop whose fee asset is known is the network fee
    of the hop in base units, zero when there is none, brought to the
    precision of the fee asset. *)
Theorem networkFeeCryptoPrecision_by_swapper state :
  (selectActiveSwapperName swapperNames referenceValue state = Some CowSwap →
   selectFirstHopNetworkFeeCryptoPrecision swapperNames referenceValue state = bn 0
   ∧ selectSecondHopNetworkFeeCryptoPrecision swapperNames referenceValue state = bn 0
   ∧ selectLastHopNetworkFeeCryptoPrecision swapperNames referenceValue state = bn 0)
  ∧ (∀ name,
       selectActiveSwapperName swapperNames referenceValue state = Some name →
       name ≠ CowSwap →
       (∀ hop feeAsset,
          selectFirstHop swapperNames referenceValue state = Some hop →
          selectFeeAssetById state !! assetId (sellAsset hop) = Some feeAsset →
          selectFirstHopNetworkFeeCryptoPrecision swapperNames referenceValue state
          = fromBaseUnit (bnOrZero (networkFeeCryptoBaseUnit (feeData hop)))
              (precision feeAsset))
       ∧ (∀ hop feeAsset,
          selectSecondHop swapperNames referenceValue state = Some hop →
          selectFeeAssetById state !! assetId (sellAsset hop) = Some feeAsset →
          selectSecondHopNetworkFeeCryptoPrecision swapperNames referenceValue state
          = fromBaseUnit (bnOrZero (networkFeeCryptoBaseUnit (feeData hop)))
              (precision feeAsset))
       ∧ (∀ hop feeAsset,
          selectLastHop swapperNames referenceValue state = Some hop →
          selectFeeAssetById state !! assetId (sellAsset hop) = Some feeAsset →
          selectLastHopNetworkFeeCryptoPrecision swapperNames referenceValue state
          = fromBaseUnit (bnOrZero (networkFeeCryptoBaseUnit (feeData hop)))
              (precision feeAsset))).
Proof.
  split.
  - intros Hcow. apply selectNetworkFeeRequiresBalance_CowSwap in Hcow.
    unfold selectFirstHopNetworkFeeCryptoPrecision, selectSecondHopNetworkFeeCryptoPrecision,
      selectLastHopNetworkFeeCryptoPrecision.
    rewrite Hcow. repeat split.
  - intros name Hname Hne.
    pose proof (selectNetworkFeeRequiresBalance_other state name Hname Hne) as Hreq.
    unfold selectFirstHopNetworkFeeCryptoPrecision, selectSecondHopNetworkFeeCryptoPrecision,
      selectLastHopNetworkFeeCryptoPrecision.
    rewrite Hreq.
    unfold selectFirstHopSellFeeAsset, selectSecondHopSellFeeAsset, selectLastHopSellFeeAsset,
      selectFirstHopSellAsset, selectSecondHopSellAsset, selectLastHopSellAsset,
      selectFirstHopNetworkFeeCryptoBaseUnit, selectSecondHopNetworkFeeCryptoBaseUnit,
      selectLastHopNetworkFeeCryptoBaseUnit.
    repeat split; intros hop feeAsset -> Hfee; rewrite feeAssetOf_hop, Hfee; reflexivity.
Qed.

End NetworkFeeFacts.

Lemma networkFeeCryptoPrecision_by_swapper_witness :
  let cow := sampleState cowSwapAggregate None None (Some (bn 1000)) in
  let bridge := sampleState bridgeAggregate None None (Some (bn 1000)) in
  (selectFirstHopNetworkFeeCryptoPrecision sampleSwapperNames sampleReferenceValue cow = bn 0
   ∧ selectSecondHopNetworkFeeCryptoPrecision sampleSwapperNames sampleReferenceValue cow
     = bn 0
   ∧ selectLastHopNetworkFeeCryptoPrecision sampleSwapperNames sampleReferenceValue cow
     = bn 0)
  ∧ selectFirstHopNetworkFeeCryptoPrecision sampleSwapperNames sampleReferenceValue bridge
    = fromBaseUnit (bn 2000000000000000000) 18.
Proof.
  cbv zeta. split.
  - apply (proj1 (networkFeeCryptoPrecision_by_swapper sampleSwapperNames
                    sampleReferenceValue
                    (sampleState cowSwapAggregate None None (Some (bn 1000))))).
    vm_compute. reflexivity.
  - apply (proj1 (proj2 (networkFeeCryptoPrecision_by_swapper sampleSwapperNames
                           sampleReferenceValue
                           (sampleState bridgeAggregate None None (Some (bn 1000))))
                    ArbitrumBridge ltac:(vm_compute; reflexivity) ltac:(discriminate))
             (mkTradeQuoteStep 60000 "0x0" (bn 2) sampleEth sampleUsdc 0%nat (bn 2000)
                (bn 1990) (bn 1000)
                (mkFeeData ∅ (Some (bn 2000000000000000000))) ArbitrumBridge)
             sampleEth).
    + vm_compute. reflexivity.
    + vm_compute. reflexivity.
Defined.

(** C10, as stated, fails: with CowSwap the active swapper, the network
    fee of the first hop in user currency and the total network fee are
    6, the two ETH of the hop at a price of 3, not "0". *)
Lemma cowSwap_user_currency_fee_not_zero :
  let state := sampleState cowSwapAggregate None None (Some (bn 1000)) in
  selectActiveSwapperName sampleSwapperNames sampleReferenceValue state = Some CowSwap
  ∧ selectFirstHopNetworkFeeUserCurrencyPrecision sampleSwapperNames sampleReferenceValue
      state = Ok (Some (bn 6))
  ∧ selectTotalNetworkFeeUserCurrencyPrecision sampleSwapperNames sampleReferenceValue
      state = Ok (bn 6)
  ∧ selectFirstHopNetworkFeeUserCurrencyPrecision sampleSwapperNames sampleReferenceValue
      state ≠ Ok (Some (bn 0))
  ∧ selectTotalNetworkFeeUserCurrencyPrecision sampleSwapperNames sampleReferenceValue
      state ≠ Ok (bn 0).
Proof.
  cbv zeta.
  assert (H1 : selectFirstHopNetworkFeeUserCurrencyPrecision sampleSwapperNames
                 sampleReferenceValue
                 (sampleState cowSwapAggregate None None (Some (bn 1000)))
               = Ok (Some (bn 6))) by (vm_compute; reflexivity).
  assert (H2 : selectTotalNetworkFeeUserCurrencyPrecision sampleSwapperNames
                 sampleReferenceValue
                 (sampleState cowSwapAggregate None None (Some (bn 1000)))
               = Ok (bn 6)) by (vm_compute; reflexivity).
  split; [vm_compute; reflexivity|].
  split; [exact H1|]. split; [exact H2|].
  rewrite H1, H2. split; discriminate.
Qed.

(** The fees in user currency do not look at the swapper: they are the
    same for the same route from the Arbitrum bridge. *)
Example bridge_user_currency_fee :
  let state := sampleState bridgeAggregate None None (Some (bn 1000)) in
  selectActiveSwapperName sampleSwapperNames sampleReferenceValue state = Some ArbitrumBridge
  ∧ selectFirstHopNetworkFeeUserCurrencyPrecision sampleSwapperNames sampleReferenceValue
      state = Ok (Some (bn 6))
  ∧ selectTotalNetworkFeeUserCurrencyPrecision sampleSwapperNames sampleReferenceValue
      state = Ok (bn 6).
Proof. cbv zeta. repeat split; vm_compute; reflexivity. Qed.

(** ** The listeners of the execution *)

(** Actions reach the hop of their index and no other. *)
Lemma dispatch_same_hop state a k :
  bool_decide (k = 0%nat) = bool_decide (actionHopIndex a = 0%nat) →
  selectHopExecutionMetadata (dispatch state a) k
  = hopReducer a (selectHopExecutionMetadata state k).
Proof.
  intros Hk.
  unfold selectHopExecutionMetadata, selectTradeQuoteSlice, dispatch, withTradeQuoteSlice,
    tradeQuoteSliceReducer, updateHop.
  cbn [tradeQuoteSlice tradeExecution]. rewrite Hk.
  by destruct (bool_decide (actionHopIndex a = 0%nat)).
Qed.

Lemma dispatch_other_hop state a k :
  bool_decide (k = 0%nat) ≠ bool_decide (actionHopIndex a = 0%nat) →
  selectHopExecutionMetadata (dispatch state a) k = selectHopExecutionMetadata state k.
Proof.
  intros Hne.
  unfold selectHopExecutionMetadata, selectTradeQuoteSlice, dispatch, withTradeQuoteSlice,
    tradeQuoteSliceReducer, updateHop.
  cbn [tradeQuoteSlice tradeExecution].
  destruct (bool_decide (k = 0%nat)), (bool_decide (actionHopIndex a = 0%nat));
    done.
Qed.

Section ListenerFacts.

Variable translate : string -> string.
Variable hopIndex : nat.

Lemma onEvents_app txHash (before after : list TradeExecutionEvent) :
  onEvents translate hopIndex txHash (before ++ after)
  = let '(txHash1, done1) := onEvents translate hopIndex txHash before in
    let '(txHash2, done2) := onEvents translate hopIndex txHash1 after in
    (txHash2, done1 ++ done2).
Proof.
  revert txHash. induction before as [|ev before IH]; intros txHash; cbn [onEvents app].
  - by destruct (onEvents translate hopIndex txHash after).
  - destruct (onEvent translate hopIndex txHash ev) as [txHash1 done1].
    rewrite IH.
    destruct (onEvents translate hopIndex txHash1 before) as [txHash2 done2].
    destruct (onEvents translate hopIndex txHash2 after) as [txHash3 done3].
    by rewrite app_assoc.
Qed.

(** The shared variable stays empty as long as no event shows a hash. *)
Lemma onEvents_no_txHash txHash (events : list TradeExecutionEvent) :
  truthy txHash = false →
  existsb showsTxHash events = false →
  truthy (onEvents translate hopIndex txHash events).1 = false.
Proof.
  revert txHash. induction events as [|ev events IH]; intros txHash Hempty Hnone;
    cbn [onEvents existsb] in *; [done|].
  apply orb_false_iff in Hnone as [Hev Hrest].
  destruct (onEvent translate hopIndex txHash ev) as [txHash1 done1] eqn:Hstep.
  specialize (IH txHash1).
  destruct (onEvents translate hopIndex txHash1 events) as [txHash2 done2]. cbn.
  apply IH; [|done].
  destruct ev as [sell|buy message| | |];
    unfold onEvent in Hstep; unfold showsTxHash in Hev.
  - by injection Hstep as <- _.
  - destruct buy as [hash|]; [|by injection Hstep as <- _].
    rewrite Hev in Hstep. by injection Hstep as <- _.
  - rewrite Hempty in Hstep. by injection Hstep as <- _.
  - by injection Hstep as <- _.
  - by injection Hstep as <- _.
Qed.

(** C6: a [Fail] or [Error] event puts the hop of the execution in the
    [Failed] state with the message of the failure, leaves the other hop
    as it was, and ends by resolving the promise of [executeTrade]. *)
Theorem failure_event_fails_the_hop state txHash ev e :
  ev = Fail e ∨ ev = Error e →
  let after := perform state (onEvent translate hopIndex txHash ev).2 in
  hopState (selectHopExecutionMetadata after hopIndex) = Failed
  ∧ hopMessage (selectHopExecutionMetadata after hopIndex) = failureMessage e
  ∧ (∀ other,
       bool_decide (other = 0%nat) ≠ bool_decide (hopIndex = 0%nat) →
       selectHopExecutionMetadata after other = selectHopExecutionMetadata state other)
  ∧ list.last (onEvent translate hopIndex txHash ev).2 = Some Resolve
  ∧ (onEvent translate hopIndex txHash ev).1 = txHash.
Proof.
  intros Hev.
  assert (Hdone : onEvent translate hopIndex txHash ev = (txHash, onFail hopIndex e))
    by (destruct Hev as [-> | ->]; reflexivity).
  rewrite Hdone. cbn [fst snd onFail perform foldl]. fold (failureMessage e).
  repeat split.
  - rewrite !dispatch_same_hop by reflexivity. reflexivity.
  - rewrite !dispatch_same_hop by reflexivity. reflexivity.
  - intros other Hother. by rewrite !dispatch_other_hop.
Qed.

End ListenerFacts.

Lemma failure_event_fails_the_hop_witness :
  let after :=
    perform sampleExecutionState
      (onEvent sampleTranslate 1 (Some "0xsell")
         (Fail (Some (mkJsError (Some "broadcast rejected"))))).2 in
  hopState (selectHopExecutionMetadata after 1) = Failed
  ∧ hopMessage (selectHopExecutionMetadata after 1) = Some "broadcast rejected"
  ∧ (∀ other,
       bool_decide (other = 0%nat) ≠ bool_decide (1%nat = 0%nat) →
       selectHopExecutionMetadata after other
       = selectHopExecutionMetadata sampleExecutionState other)
  ∧ list.last
      (onEvent sampleTranslate 1 (Some "0xsell")
         (Fail (Some (mkJsError (Some "broadcast rejected"))))).2 = Some Resolve
  ∧ (onEvent sampleTranslate 1 (Some "0xsell")
       (Fail (Some (mkJsError (Some "broadcast rejected"))))).1 = Some "0xsell".
Proof.
  apply (failure_event_fails_the_hop sampleTranslate 1 sampleExecutionState (Some "0xsell")
           (Fail (Some (mkJsError (Some "broadcast rejected"))))
           (Some (mkJsError (Some "broadcast rejected")))).
  left. reflexivity.
Defined.

(** The first hop, which had succeeded, is as it was. *)
Example failure_keeps_succeeded_hop :
  selectHopExecutionMetadata
    (perform sampleExecutionState
       (onEvent sampleTranslate 1 (Some "0xsell")
          (Fail (Some (mkJsError (Some "broadcast rejected"))))).2) 0
  = sampleSucceededHop.
Proof. reflexivity. Qed.

(** ** Success without a transaction identifier *)

Section SuccessFacts.

Variable translate : string -> string.
Variable hopIndex : nat.

(** C4, amended: when the [Success] event arrives and no event before
    it showed a transaction identifier, neither a sell hash nor a buy
    hash, the listener reports the error "missing txHash" and resolves;
    it does not mark the hop complete. *)
Theorem success_without_txHash_reports (before : list TradeExecutionEvent) :
  existsb showsTxHash before = false →
  let '(txHash, done1) := onEvents translate hopIndex None before in
  onEvents translate hopIndex None (before ++ [Success])
  = (txHash,
     done1 ++ [ ShowErrorToast (Some (mkJsError (Some "missing txHash"))); Resolve ])
  ∧ Dispatch (setSwapTxComplete hopIndex)
      ∉ (onEvent translate hopIndex txHash Success).2.
Proof.
  intros Hnone.
  pose proof (onEvents_no_txHash translate hopIndex None before eq_refl Hnone) as Hempty.
  rewrite onEvents_app.
  destruct (onEvents translate hopIndex None before) as [txHash done1].
  cbn [fst] in Hempty. cbn [onEvents onEvent]. rewrite Hempty. cbn [negb].
  split; [reflexivity|].
  cbn [snd]. intros Hin. apply list_elem_of_In in Hin.
  destruct Hin as [Hin|[Hin|[]]]; discriminate.
Qed.

(** Once an event has left a transaction identifier in the shared
    variable, [Success] marks the hop complete and reports nothing. *)
Lemma success_with_txHash_completes txHash :
  truthy txHash = true →
  onEvent translate hopIndex txHash Success
  = (txHash,
     [ Dispatch (setSwapTxMessage hopIndex (Some (translate "trade.transactionSuccessful")));
       Dispatch (setSwapTxComplete hopIndex);
       Resolve ]).
Proof. intros H. unfold onEvent. rewrite H. reflexivity. Qed.

(** A [Status] event never writes a buy hash to the store: whatever the
    event carries, the listener dispatches the message alone, and the
    buy hash of every hop stays what it was. *)
Lemma status_event_keeps_buyTxHash state txHash buy message k :
  (onEvent translate hopIndex txHash (Status buy message)).2
  = [ Dispatch (setSwapTxMessage hopIndex message) ]
  ∧ buyTxHash
      (selectHopExecutionMetadata
         (perform state (onEvent translate hopIndex txHash (Status buy message)).2) k)
    = buyTxHash (selectHopExecutionMetadata state k).
Proof.
  assert (Hdone : (onEvent translate hopIndex txHash (Status buy message)).2
                  = [ Dispatch (setSwapTxMessage hopIndex message) ]).
  { unfold onEvent. destruct buy as [hash|]; [|reflexivity].
    by destruct (truthy (Some hash)). }
  rewrite Hdone. split; [reflexivity|]. cbn [perform foldl].
  destruct (decide (bool_decide (k = 0%nat) = bool_decide (hopIndex = 0%nat))) as [Hk|Hk].
  - by rewrite dispatch_same_hop.
  - by rewrite dispatch_other_hop.
Qed.

End SuccessFacts.

Lemma success_without_txHash_reports_witness :
  let '(txHash, done1) :=
    onEvents sampleTranslate 0 None [Status None (Some "waiting"); SellTxHash ""] in
  onEvents sampleTranslate 0 None
    ([Status None (Some "waiting"); SellTxHash ""] ++ [Success])
  = (txHash,
     done1 ++ [ ShowErrorToast (Some (mkJsError (Some "missing txHash"))); Resolve ])
  ∧ Dispatch (setSwapTxComplete 0)
      ∉ (onEvent sampleTranslate 0 txHash Success).2.
Proof.
  apply (success_without_txHash_reports sampleTranslate 0
           [Status None (Some "waiting"); SellTxHash ""]).
  reflexivity.
Defined.

(** C4, as stated, fails: the sell hash alone is enough for [Success]
    to mark the hop complete.  No event shows a buy hash, the hop is
    marked complete, and no error is reported. *)
Lemma success_without_buyTxHash_completes :
  let events := [SellTxHash "0xsell"; Status None (Some "confirming"); Success] in
  let effects := (onEvents sampleTranslate 0 None events).2 in
  existsb showsBuyTxHash events = false
  ∧ effects
    = [ Dispatch (setSwapSellTxHash 0 "0xsell");
        Dispatch (setSwapTxMessage 0 (Some "confirming"));
        Dispatch (setSwapTxMessage 0 (Some "trade.transactionSuccessful"));
        Dispatch (setSwapTxComplete 0);
        Resolve ]
  ∧ (∀ e, ShowErrorToast e ∉ effects)
  ∧ hopState (selectHopExecutionMetadata (perform sampleExecutionState effects) 0) = Succeeded
  ∧ buyTxHash
      (selectHopExecutionMetadata
         (perform (withTradeQuoteSlice sampleExecutionState
                     (mkTradeQuoteSliceState None (Some sampleConfirmed) None sampleAggregate
                        (mkTradeExecutionMetadata sampleHop sampleHop)))
                  effects) 0)
    = None.
Proof.
  cbv zeta. split; [reflexivity|]. split; [reflexivity|]. split; [|split; reflexivity].
  intros e Hin. apply list_elem_of_In in Hin. cbn in Hin.
  repeat (destruct Hin as [Hin|Hin]; [discriminate|]). exact Hin.
Qed.

(** C5 on a concrete event: a [Status] event with the buy hash "0xbuy"
    and the message "confirming" reaches the listener of hop 1, whose
    buy hash is not known yet.  The message is stored; the buy hash of
    the hop is still unknown, because the action that would store it is
    created and never dispatched. *)
Theorem status_event_loses_buyTxHash :
  let effects :=
    (onEvent sampleTranslate 1 (Some "0xsell") (Status (Some "0xbuy") (Some "confirming"))).2
  in
  let after := perform sampleExecutionState effects in
  effects = [ Dispatch (setSwapTxMessage 1 (Some "confirming")) ]
  ∧ (Dispatch (setSwapBuyTxHash 1 "0xbuy") ∉ effects)
  ∧ hopMessage (selectHopExecutionMetadata after 1) = Some "confirming"
  ∧ buyTxHash (selectHopExecutionMetadata sampleExecutionState 1) = None
  ∧ buyTxHash (selectHopExecutionMetadata after 1) = None
  ∧ buyTxHash (selectHopExecutionMetadata after 1) ≠ Some "0xbuy"
  ∧ buyTxHash
      (selectHopExecutionMetadata
         (dispatch (perform sampleExecutionState effects) (setSwapBuyTxHash 1 "0xbuy")) 1)
    = Some "0xbuy".
Proof.
  cbv zeta. split; [reflexivity|]. split.
  { intros Hin. apply list_elem_of_In in Hin. cbn in Hin.
    destruct Hin as [Hin|[]]. discriminate. }
  repeat split. discriminate.
Qed.

(** ** The dispatch on the chain family *)

(** C8: the dispatch covers the four families.  CowSwap selects the
    signing of an off-chain message whatever the chain namespace; for
    every other swapper the namespaces EVM, UTXO and Cosmos SDK select
    their transaction strategy; a namespace outside the enumeration
    ends in the failure of [assertUnreachable]; and no input makes the
    dispatch return without having done anything. *)
Theorem selectStrategy_exhaustive :
  (∀ namespace, selectStrategy CowSwap namespace = Ok execEvmMessage)
  ∧ (∀ name,
       name ≠ CowSwap →
       selectStrategy name Evm = Ok execEvmTransaction
       ∧ selectStrategy name Utxo = Ok execUtxoTransaction
       ∧ selectStrategy name CosmosSdk = Ok execCosmosSdkTransaction
       ∧ ∀ other accountType,
           selectStrategy name (OtherNamespace other) = assertUnreachable other
           ∧ dispatchHop name (OtherNamespace other) accountType
             = Err ("unhandled case: " +:+ other))
  ∧ (∀ name namespace accountType, dispatchHop name namespace accountType ≠ Ok [])
  ∧ (∀ name namespace accountType effects,
       dispatchHop name namespace accountType = Ok effects →
       ∃ strategy, selectStrategy name namespace = Ok strategy
                   ∧ effects = [ Exec strategy ]).
Proof.
  split; [|split; [|split]].
  - intros namespace. reflexivity.
  - intros name Hne. unfold selectStrategy, dispatchHop, selectStrategy.
    rewrite bool_decide_eq_false_2 by done.
    repeat split.
  - intros name namespace accountType. unfold dispatchHop, selectStrategy.
    case_bool_decide; [discriminate|].
    destruct namespace, accountType; discriminate.
  - intros name namespace accountType effects. unfold dispatchHop, selectStrategy.
    case_bool_decide.
    + intros [= <-]. eauto.
    + destruct namespace, accountType; cbn; intros [= <-] || discriminate; eauto.
Qed.

Lemma selectStrategy_exhaustive_witness :
  selectStrategy CowSwap Utxo = Ok execEvmMessage
  ∧ selectStrategy ArbitrumBridge Evm = Ok execEvmTransaction
  ∧ selectStrategy (OtherSwapper "THORChain") Utxo = Ok execUtxoTransaction
  ∧ selectStrategy (OtherSwapper "THORChain") CosmosSdk = Ok execCosmosSdkTransaction
  ∧ selectStrategy ArbitrumBridge (OtherNamespace "solana")
    = Err "unhandled case: solana"
  ∧ ∃ strategy, selectStrategy ArbitrumBridge Evm = Ok strategy
                ∧ [ Exec execEvmTransaction ] = [ Exec strategy ].
Proof.
  pose proof selectStrategy_exhaustive as (Hcow & Hother & _ & Hdone).
  split; [exact (Hcow Utxo)|].
  split; [exact (proj1 (Hother ArbitrumBridge ltac:(discriminate)))|].
  split; [exact (proj1 (proj2 (Hother (OtherSwapper "THORChain") ltac:(discriminate))))|].
  split;
    [exact (proj1 (proj2 (proj2 (Hother (OtherSwapper "THORChain") ltac:(discriminate)))))|].
  split;
    [exact (proj1 (proj2 (proj2 (proj2 (Hother ArbitrumBridge ltac:(discriminate))))
                     "solana" None))|].
  exact (Hdone ArbitrumBridge Evm None [ Exec execEvmTransaction ] eq_refl).
Defined.

(** The UTXO branch needs the account type; without it the branch
    throws before it reaches the execution. *)
Example dispatchHop_utxo :
  dispatchHop ArbitrumBridge Utxo (Some "P2WPKH") = Ok [ Exec execUtxoTransaction ]
  ∧ dispatchHop ArbitrumBridge Utxo None = Err "Missing UTXO account type".
Proof. split; reflexivity. Qed.

(** * Further properties of the modelled code *)

(** ** The flags of the swappers *)

(** A dictionary filled by a [reduce] over a list of keys. *)
Lemma foldl_insert_lookup {V : Type} (f : SwapperName → V) (names : list SwapperName)
    (acc : gmap SwapperName V) (name : SwapperName) :
  foldl (fun acc n => <[n := f n]> acc) acc names !! name
  = if decide (name ∈ names) then Some (f name) else acc !! name.
Proof.
  revert acc. induction names as [|n names IH]; intros acc; cbn [foldl].
  - destruct (decide (name ∈ [])) as [Hin|_]; [by apply elem_of_nil in Hin|done].
  - rewrite IH. destruct (decide (name ∈ names)) as [Hin|Hnin].
    + rewrite decide_True by (by apply list_elem_of_further). done.
    + destruct (decide (n = name)) as [->|Hne].
      * rewrite lookup_insert_eq, decide_True by apply list_elem_of_here. done.
      * rewrite lookup_insert_ne by done.
        rewrite decide_False; [done|]. intros [?|?]%elem_of_cons; congruence.
Qed.

Section SwapperFlagFacts.

Variable swapperNames : list SwapperName.
Variable getEnabledSwappers : gmap string bool -> bool -> SwapperName -> bool.

(** The entries of [selectIsSwapperResponseAvailable]. *)
Lemma selectIsSwapperResponseAvailable_lookup state name :
  selectIsSwapperResponseAvailable swapperNames getEnabledSwappers state !! name
  = if decide (name ∈ selectEnabledSwappersIgnoringCrossAccountTrade swapperNames
                        getEnabledSwappers state)
    then Some (bool_decide (is_Some (selectTradeQuotes state !! name)))
    else None.
Proof.
  unfold selectIsSwapperResponseAvailable. cbv zeta.
  rewrite (foldl_insert_lookup
             (fun n => bool_decide (is_Some (selectTradeQuotes state !! n)))).
  by rewrite lookup_empty.
Qed.

(** The flag [selectIsSwapperQuoteAvailable] computes for a swapper. *)
Lemma quote_flag_true (responses : option (gmap string ApiQuote)) :
  match responses with
  | None => false
  | Some responses =>
    existsb (fun swapperQuote => bool_decide (is_Some (quote swapperQuote)))
            (Object_values responses)
  end = true
  ↔ ∃ rs ident response,
      responses = Some rs ∧ rs !! ident = Some response ∧ is_Some (quote response).
Proof.
  destruct responses as [rs|].
  - rewrite existsb_exists. split.
    + intros (response & Hin & Hq).
      apply list_elem_of_In, elem_of_Object_values in Hin as [ident Hident].
      apply bool_decide_eq_true in Hq. eauto 6.
    + intros (rs' & ident & response & [= <-] & Hident & Hq).
      exists response. split.
      * apply list_elem_of_In, elem_of_Object_values. eauto.
      * by apply bool_decide_eq_true.
  - split; [done|]. by intros (? & ? & ? & ? & _).
Qed.

(** The swappers [selectIsSwapperQuoteAvailable] flags. *)
Lemma selectIsSwapperQuoteAvailable_iff state name :
  selectIsSwapperQuoteAvailable swapperNames getEnabledSwappers state !! name = Some true
  ↔ name ∈ selectEnabledSwappersIgnoringCrossAccountTrade swapperNames getEnabledSwappers
             state
    ∧ ∃ responses ident response,
        selectTradeQuotes state !! name = Some responses
        ∧ responses !! ident = Some response
        ∧ is_Some (quote response).
Proof.
  unfold selectIsSwapperQuoteAvailable. cbv zeta.
  rewrite (foldl_insert_lookup
             (fun n =>
                match selectTradeQuotes state !! n with
                | None => false
                | Some responses =>
                  existsb (fun swapperQuote => bool_decide (is_Some (quote swapperQuote)))
                          (Object_values responses)
                end)).
  rewrite lookup_empty.
  destruct (decide (name ∈ _)) as [Hin|Hnin].
  - split.
    + intros [= Hflag]. split; [done|]. by apply quote_flag_true.
    + intros [_ Hq]. f_equal. by apply quote_flag_true.
  - split; [done|]. by intros [? _].
Qed.

(** X1: the two dictionaries of flags have an entry for the enabled
    swappers and for no other.  [selectIsSwapperResponseAvailable]
    flags an enabled swapper exactly when the aggregate state holds a
    response of it; [selectIsSwapperQuoteAvailable] flags it exactly
    when one of its recorded responses holds a quote, so a swapper
    flagged there is flagged by the former too. *)
Theorem swapper_flags state name :
  let enabled :=
    selectEnabledSwappersIgnoringCrossAccountTrade swapperNames getEnabledSwappers state in
  let response := selectIsSwapperResponseAvailable swapperNames getEnabledSwappers state in
  let quoted := selectIsSwapperQuoteAvailable swapperNames getEnabledSwappers state in
  (is_Some (response !! name) ↔ name ∈ enabled)
  ∧ (is_Some (quoted !! name) ↔ name ∈ enabled)
  ∧ (response !! name = Some true
     ↔ name ∈ enabled ∧ is_Some (selectTradeQuotes state !! name))
  ∧ (quoted !! name = Some true
     ↔ name ∈ enabled
       ∧ ∃ responses ident response,
           selectTradeQuotes state !! name = Some responses
           ∧ responses !! ident = Some response
           ∧ is_Some (quote response))
  ∧ (quoted !! name = Some true → response !! name = Some true).
Proof.
  cbv zeta.
  rewrite selectIsSwapperResponseAvailable_lookup.
  split; [|split; [|split; [|split]]].
  - destruct (decide (name ∈ _)); split; [done | by eexists | by intros [? ?] | done].
  - unfold selectIsSwapperQuoteAvailable. cbv zeta.
    rewrite (foldl_insert_lookup
               (fun n =>
                  match selectTradeQuotes state !! n with
                  | None => false
                  | Some responses =>
                    existsb (fun swapperQuote => bool_decide (is_Some (quote swapperQuote)))
                            (Object_values responses)
                  end)).
    rewrite lookup_empty.
    destruct (decide (name ∈ _)); split; [done | by eexists | by intros [? ?] | done].
  - destruct (decide (name ∈ _)) as [Hin|Hnin].
    + split.
      * intros [= Hflag]. split; [done|]. by apply bool_decide_eq_true in Hflag.
      * intros [_ Hsome]. f_equal. by apply bool_decide_eq_true.
    + split; [done|]. by intros [? _].
  - apply selectIsSwapperQuoteAvailable_iff.
  - intros (Hin & responses & _ & _ & Hl & _ & _)%selectIsSwapperQuoteAvailable_iff.
    rewrite decide_True by done.
    f_equal. apply bool_decide_eq_true. by rewrite Hl.
Qed.

End SwapperFlagFacts.

(** ** The active swapper, its response and the hops *)

Section ActiveSelectionFacts.

Variable swapperNames : list SwapperName.
Variable referenceValue : Asset -> BigNumber -> BigNumber.

(** X2: [selectActiveSwapperName] names a swapper exactly when
    [selectActiveSwapperApiResponse] finds a response, and the name is
    that of the pointer the response was found under; so, with no
    confirmed quote, an active quote always comes with the name of its
    swapper. *)
Theorem selectActiveSwapperName_response state :
  (is_Some (selectActiveSwapperName swapperNames referenceValue state)
   ↔ is_Some (selectActiveSwapperApiResponse swapperNames referenceValue state))
  ∧ (∀ name,
       selectActiveSwapperName swapperNames referenceValue state = Some name →
       ∃ pointer,
         selectActiveQuoteMetaOrDefault swapperNames referenceValue state = Some pointer
         ∧ swapperName pointer = name
         ∧ selectActiveSwapperApiResponse swapperNames referenceValue state
           = lookupQuote (selectTradeQuotes state) pointer)
  ∧ (selectConfirmedQuote state = None →
     is_Some (selectActiveQuote swapperNames referenceValue state) →
     is_Some (selectActiveSwapperName swapperNames referenceValue state)).
Proof.
  unfold selectActiveQuote, selectActiveSwapperName, selectActiveSwapperApiResponse.
  cbv zeta.
  destruct (selectActiveQuoteMetaOrDefault swapperNames referenceValue state)
    as [pointer|].
  - destruct (lookupQuote (selectTradeQuotes state) pointer) as [response|] eqn:Hl.
    + split; [split; eauto|]. split.
      * intros name [= <-]. exists pointer. by rewrite Hl.
      * intros _ _. eauto.
    + split; [split; by intros [? ?]|]. split; [done|].
      intros Hc Hq. rewrite Hc in Hq. by destruct Hq.
  - split; [split; by intros [? ?]|]. split; [done|].
    intros Hc Hq. rewrite Hc in Hq. by destruct Hq.
Qed.

(** X3: the first hop is the head of the steps of the active quote and
    the last hop their last element; so a quote of one step has the same
    first and last hop and no second hop, and a quote without steps has
    no hop at all. *)
Theorem selectLastHop_last state q :
  selectActiveQuote swapperNames referenceValue state = Some q →
  selectFirstHop swapperNames referenceValue state = list.head (steps q)
  ∧ selectSecondHop swapperNames referenceValue state = steps q !! 1%nat
  ∧ selectLastHop swapperNames referenceValue state = list.last (steps q)
  ∧ (∀ hop, steps q = [hop] →
       selectFirstHop swapperNames referenceValue state = Some hop
       ∧ selectLastHop swapperNames referenceValue state = Some hop
       ∧ selectSecondHop swapperNames referenceValue state = None)
  ∧ (steps q = [] → selectLastHop swapperNames referenceValue state = None).
Proof.
  intros Hq. unfold selectFirstHop, selectSecondHop, selectLastHop, getHopByIndex.
  rewrite Hq.
  assert (Hlast : match length (steps q) with
                  | O => None
                  | S stepIndex => steps q !! stepIndex
                  end = list.last (steps q)).
  { rewrite last_lookup. by destruct (steps q). }
  rewrite Hlast. split; [by rewrite head_lookup|]. split; [done|]. split; [done|]. split.
  - intros hop ->. done.
  - intros ->. done.
Qed.

(** X4: [selectFirstHopNetworkFeeUserCurrencyPrecision] throws exactly
    when the active quote has a first hop and the store knows no fee
    asset for the sell asset of that hop, and the error names the sell
    asset; without a first hop it returns nothing and does not throw. *)
Theorem firstHopNetworkFeeUserCurrency_throws state :
  (∀ message,
     selectFirstHopNetworkFeeUserCurrencyPrecision swapperNames referenceValue state
     = Err message
     ↔ ∃ hop,
         selectFirstHop swapperNames referenceValue state = Some hop
         ∧ selectFeeAssetById state !! assetId (sellAsset hop) = None
         ∧ message = "missing fee asset for assetId " +:+ assetId (sellAsset hop))
  ∧ (selectFirstHop swapperNames referenceValue state = None →
     selectFirstHopNetworkFeeUserCurrencyPrecision swapperNames referenceValue state
     = Ok None).
Proof.
  unfold selectFirstHopNetworkFeeUserCurrencyPrecision, networkFeeUserCurrencyPrecision,
    selectFirstHopSellFeeAsset, selectFirstHopSellAsset.
  destruct (selectFirstHop swapperNames referenceValue state) as [hop|].
  - rewrite feeAssetOf_hop.
    destruct (selectFeeAssetById state !! assetId (sellAsset hop)) as [feeAsset|] eqn:Hfee.
    + split; [|done]. intros message. split; [done|].
      intros (hop' & [= <-] & Hnone & _). congruence.
    + split; [|done]. intros message. split.
      * intros [= <-]. eauto.
      * intros (hop' & [= <-] & _ & ->). done.
  - split; [|done]. intros message. split; [done|]. by intros (? & ? & _).
Qed.

(** X5: [selectTotalNetworkFeeUserCurrencyPrecision] throws exactly when
    the selector of the first or of the second hop does; with no active
    quote it is "0". *)
Theorem totalNetworkFeeUserCurrency_throws state :
  ((∃ message,
      selectTotalNetworkFeeUserCurrencyPrecision swapperNames referenceValue state
      = Err message)
   ↔ (∃ message,
        selectFirstHopNetworkFeeUserCurrencyPrecision swapperNames referenceValue state
        = Err message)
     ∨ (∃ message,
        selectSecondHopNetworkFeeUserCurrencyPrecision swapperNames referenceValue state
        = Err message))
  ∧ (selectActiveQuote swapperNames referenceValue state = None →
     selectTotalNetworkFeeUserCurrencyPrecision swapperNames referenceValue state
     = Ok (bn 0)).
Proof.
  split.
  - unfold selectTotalNetworkFeeUserCurrencyPrecision.
    destruct (selectFirstHopNetworkFeeUserCurrencyPrecision _ _ _) as [first|e1];
      destruct (selectSecondHopNetworkFeeUserCurrencyPrecision _ _ _) as [second|e2].
    + split; [by intros [? ?]|]. by intros [[? ?]|[? ?]].
    + split; eauto.
    + split; eauto.
    + split; eauto.
  - intros Hq.
    unfold selectTotalNetworkFeeUserCurrencyPrecision,
      selectFirstHopNetworkFeeUserCurrencyPrecision,
      selectSecondHopNetworkFeeUserCurrencyPrecision,
      selectFirstHop, selectSecondHop.
    rewrite Hq. reflexivity.
Qed.

End ActiveSelectionFacts.

(** ** More on the Arbitrum bridge quote *)

Section ArbitrumBridgeQuoteMoreFacts.

Variable slippage : option SwapperName -> BigNumber.

(** X6: [getTradeQuote] fails in two ways only.  An invalid trade
    returns the error of [assertValidTrade] as it is, whatever the fee
    data would have been; on a valid trade a failure to fetch the fee
    data returns a [NetworkFeeEstimationFailed] error that carries the
    thrown value as its cause.  No other error is ever returned. *)
Theorem getTradeQuote_errors input assertion swap uuid e :
  getTradeQuote slippage input assertion swap uuid = Err e
  ↔ assertion = Err e
    ∨ ∃ u thrown,
        assertion = Ok u ∧ swap = inr thrown
        ∧ e = {| err_message := "[ArbitrumBridge: tradeQuote] - failed to get fee data";
                 err_cause := Some thrown;
                 err_code := NetworkFeeEstimationFailed |}.
Proof.
  unfold getTradeQuote. destruct assertion as [u|e']; [destruct swap as [s|thrown]|].
  - split; [done|]. intros [?|(? & ? & _ & ? & _)]; done.
  - split.
    + intros [= <-]. right. by exists u, thrown.
    + intros [?|(? & ? & _ & [= <-] & ->)]; done.
  - split.
    + intros [= <-]. by left.
    + intros [[= <-]|(? & ? & ? & _)]; done.
Qed.

(** X7: every quote [getTradeQuote] returns passes
    [isArbitrumBridgeTradeQuote]; it is a deposit exactly when the sell
    asset is on Ethereum mainnet and a withdrawal otherwise, and its
    hop, whose source is the Arbitrum bridge and which has no protocol
    fees, is estimated at 15 minutes for a deposit and at 7 days for a
    withdrawal. *)
Theorem getTradeQuote_direction input assertion swap uuid q :
  getTradeQuote slippage input assertion swap uuid = Ok q →
  isArbitrumBridgeTradeQuote (Some q) = true
  ∧ (direction q = Some deposit ↔ chainId (in_sellAsset input) = ethChainId)
  ∧ (direction q = Some withdrawal ↔ chainId (in_sellAsset input) ≠ ethChainId)
  ∧ ∃ hop, steps q = [hop]
      ∧ source hop = ArbitrumBridge
      ∧ protocolFees (feeData hop) = ∅
      ∧ sellAsset hop = in_sellAsset input
      ∧ buyAsset hop = in_buyAsset input
      ∧ (direction q = Some deposit → estimatedExecutionTimeMs hop = 900000)
      ∧ (direction q = Some withdrawal → estimatedExecutionTimeMs hop = 604800000).
Proof.
  unfold getTradeQuote. intros Hq.
  destruct assertion as [u|e]; [|discriminate].
  destruct swap as [s|thrown]; [|discriminate].
  injection Hq as <-. cbn [direction steps].
  split; [reflexivity|].
  case_bool_decide as Hchain.
  - split; [done|]. split; [split; [discriminate | done]|].
    eexists. split; [reflexivity|]. cbn. repeat split; discriminate.
  - split; [split; [discriminate | done]|]. split; [done|].
    eexists. split; [reflexivity|]. cbn. repeat split; discriminate.
Qed.

End ArbitrumBridgeQuoteMoreFacts.

(** ** More on the listeners *)

(** The events one after the other. *)
Lemma onEvents_cons translate hopIndex txHash ev events :
  onEvents translate hopIndex txHash (ev :: events)
  = ((onEvents translate hopIndex (onEvent translate hopIndex txHash ev).1 events).1,
     (onEvent translate hopIndex txHash ev).2
     ++ (onEvents translate hopIndex (onEvent translate hopIndex txHash ev).1 events).2).
Proof.
  cbn [onEvents]. destruct (onEvent translate hopIndex txHash ev) as [txHash1 done1].
  cbn [fst snd]. by destruct (onEvents translate hopIndex txHash1 events).
Qed.

Section ListenerMoreFacts.

Variable translate : string -> string.
Variable hopIndex : nat.

Lemma onEvent_resolves txHash ev :
  length (List.filter isResolve (onEvent translate hopIndex txHash ev).2)
  = if isTerminal ev then 1%nat else 0%nat.
Proof.
  destruct ev as [sell|buy message| | |]; cbn [onEvent isTerminal]; try reflexivity.
  - destruct buy as [hash|]; [|reflexivity]. by destruct (truthy (Some hash)).
  - by destruct (negb (truthy txHash)).
Qed.

(** X8: the listeners resolve the promise of [executeTrade] once for
    every terminal event ([Success], [Fail], [Error]) and never for
    another event: a stream with no terminal event leaves the promise
    pending, a stream with exactly one resolves it exactly once. *)
Theorem onEvents_resolves txHash (events : list TradeExecutionEvent) :
  length (List.filter isResolve (onEvents translate hopIndex txHash events).2)
  = length (List.filter isTerminal events).
Proof.
  revert txHash. induction events as [|ev events IH]; intros txHash; [reflexivity|].
  rewrite onEvents_cons. cbn [snd List.filter].
  rewrite List.filter_app, length_app, IH, onEvent_resolves.
  by destruct (isTerminal ev).
Qed.

Lemma onEvent_listenerEffect txHash ev :
  forallb (listenerEffect hopIndex) (onEvent translate hopIndex txHash ev).2 = true.
Proof.
  destruct ev as [sell|buy message| |e|e]; cbn [onEvent snd].
  - cbn. by rewrite bool_decide_eq_true_2.
  - destruct buy as [hash|]; [destruct (truthy (Some hash))|]; cbn;
      by rewrite bool_decide_eq_true_2.
  - destruct (negb (truthy txHash)); cbn; [done|]. by rewrite !bool_decide_eq_true_2.
  - cbn. by rewrite !bool_decide_eq_true_2.
  - cbn. by rewrite !bool_decide_eq_true_2.
Qed.

(** X9: whatever events arrive, the listeners of a hop dispatch
    actions about that hop only, and only messages, sell hashes,
    completions and failures: never [setSwapBuyTxHash], never
    [setSwapTxPending], and they start no execution. *)
Theorem onEvents_listenerEffect txHash (events : list TradeExecutionEvent) :
  forallb (listenerEffect hopIndex) (onEvents translate hopIndex txHash events).2 = true
  ∧ (∀ a, Dispatch a ∈ (onEvents translate hopIndex txHash events).2 →
          actionHopIndex a = hopIndex
          ∧ (∀ i hash, a ≠ setSwapBuyTxHash i hash)
          ∧ (∀ i, a ≠ setSwapTxPending i))
  ∧ (∀ s, Exec s ∉ (onEvents translate hopIndex txHash events).2).
Proof.
  assert (Hall : forallb (listenerEffect hopIndex)
                   (onEvents translate hopIndex txHash events).2 = true).
  { revert txHash. induction events as [|ev events IH]; intros txHash; [reflexivity|].
    rewrite onEvents_cons. cbn [snd].
    by rewrite forallb_app, onEvent_listenerEffect, IH. }
  split; [exact Hall|].
  rewrite forallb_forall in Hall. split.
  - intros a Hin. apply list_elem_of_In, Hall in Hin. cbn in Hin.
    destruct a; cbn in Hin; try discriminate;
      apply bool_decide_eq_true in Hin; subst; by repeat split.
  - intros s Hin. apply list_elem_of_In, Hall in Hin. discriminate.
Qed.

Lemma onEvent_keeps_txHash txHash ev :
  truthy txHash = true → clearsTxHash ev = false →
  truthy (onEvent translate hopIndex txHash ev).1 = true.
Proof.
  intros Htx Hev. destruct ev as [sell|buy message| |e|e]; cbn [onEvent fst]; try done.
  - cbn [clearsTxHash] in Hev. by apply negb_false_iff in Hev.
  - destruct buy as [hash|]; [|done].
    by destruct (truthy (Some hash)) eqn:Hhash.
  - by destruct (negb (truthy txHash)).
Qed.

Lemma onEvents_keeps_txHash txHash (events : list TradeExecutionEvent) :
  truthy txHash = true → existsb clearsTxHash events = false →
  truthy (onEvents translate hopIndex txHash events).1 = true.
Proof.
  revert txHash. induction events as [|ev events IH]; intros txHash Htx Hnone; [done|].
  cbn [existsb] in Hnone. apply orb_false_iff in Hnone as [Hev Hrest].
  rewrite onEvents_cons. cbn [fst]. apply IH; [|done].
  by apply onEvent_keeps_txHash.
Qed.

(** X10: once a sell hash that is not empty has arrived, the variable
    the listeners share never becomes empty again unless a [SellTxHash]
    event with an empty hash arrives; so a [Success] that follows marks
    the hop complete, sets the message of success and reports no
    missing hash. *)
Theorem success_after_sellTxHash sell (between : list TradeExecutionEvent) :
  sell ≠ "" →
  existsb clearsTxHash between = false →
  ∃ txHash before,
    onEvents translate hopIndex None (SellTxHash sell :: between) = (txHash, before)
    ∧ truthy txHash = true
    ∧ onEvents translate hopIndex None (SellTxHash sell :: between ++ [Success])
      = (txHash,
         before
         ++ [ Dispatch (setSwapTxMessage hopIndex
                          (Some (translate "trade.transactionSuccessful")));
              Dispatch (setSwapTxComplete hopIndex);
              Resolve ]).
Proof.
  intros Hsell Hnone.
  destruct (onEvents translate hopIndex None (SellTxHash sell :: between))
    as [txHash before] eqn:Hrun.
  assert (Htx : truthy txHash = true).
  { change txHash with (txHash, before).1. rewrite <- Hrun.
    rewrite onEvents_cons. cbn [fst onEvent].
    apply onEvents_keeps_txHash; [|done].
    cbn. by rewrite bool_decide_eq_false_2. }
  exists txHash, before. split; [reflexivity|]. split; [exact Htx|].
  change (SellTxHash sell :: between ++ [Success])
    with ((SellTxHash sell :: between) ++ [Success]).
  rewrite onEvents_app, Hrun. cbn [onEvents].
  by rewrite (success_with_txHash_completes translate hopIndex txHash Htx).
Qed.

End ListenerMoreFacts.


(** ** Loading and loaded swappers *)

Lemma existsb_cached (cache : list CachedQuote) (name : SwapperName) :
  existsb (fun quoteData => bool_decide (cachedSwapperName quoteData = name)) cache = false
  ↔ Forall (fun quoteData => cachedSwapperName quoteData ≠ name) cache.
Proof.
  induction cache as [|c cache IH]; cbn [existsb].
  - split; [constructor|done].
  - rewrite orb_false_iff, IH, list.Forall_cons, bool_decide_eq_false. done.
Qed.

Section LoadingFacts.

Variable swapperNames : list SwapperName.
Variable getEnabledSwappers : gmap string bool -> bool -> SwapperName -> bool.

Lemma selectLoadingSwappers_elem state name :
  name ∈ selectLoadingSwappers swapperNames getEnabledSwappers state
  ↔ name ∈ selectEnabledSwappersIgnoringCrossAccountTrade swapperNames getEnabledSwappers
             (store state)
    ∧ (selectTradeQuotes (store state) !! name = None
       ∨ selectIsTradeQuoteApiQueryPending state !! name = Some true)
    ∧ Forall (fun quoteData => cachedSwapperName quoteData ≠ name)
             (tradeQuoteDisplayCache state).
Proof.
  unfold selectLoadingSwappers, Object_entries, selectTradeQuoteDisplayCache. cbv zeta.
  rewrite list_elem_of_fmap. split.
  - intros ([name' flag] & -> & Hin). cbn [fst].
    apply list_elem_of_In, List.filter_In in Hin as [Hin Htest].
    apply list_elem_of_In, elem_of_map_to_list in Hin.
    rewrite selectIsSwapperResponseAvailable_lookup in Hin.
    destruct (decide (name' ∈ _)) as [Henabled|]; [|done].
    injection Hin as <-.
    apply andb_true_iff in Htest as [Hload Hcache].
    apply negb_true_iff, existsb_cached in Hcache.
    split; [done|]. split; [|done].
    apply orb_true_iff in Hload as [Hnone|Hpending].
    + left. apply negb_true_iff, bool_decide_eq_false in Hnone.
      destruct (selectTradeQuotes (store state) !! name'); [|done].
      exfalso. apply Hnone. eauto.
    + right. destruct (selectIsTradeQuoteApiQueryPending state !! name') as [[]|];
        cbn in Hpending; done.
  - intros (Henabled & Hload & Hcache).
    exists (name, bool_decide (is_Some (selectTradeQuotes (store state) !! name))).
    split; [done|].
    apply list_elem_of_In, List.filter_In. split.
    + apply list_elem_of_In, elem_of_map_to_list.
      rewrite selectIsSwapperResponseAvailable_lookup. by rewrite decide_True.
    + apply andb_true_iff. split.
      * apply orb_true_iff. destruct Hload as [Hnone|Hpending].
        -- left. rewrite Hnone. apply negb_true_iff, bool_decide_eq_false. by intros [? ?].
        -- right. by rewrite Hpending.
      * by apply negb_true_iff, existsb_cached.
Qed.

(** X12: a swapper is among the loading swappers exactly when it is
    enabled, it has no recorded response or its query is pending, and
    the display cache holds no entry of it.  Some quote is loading
    exactly when an amount is entered and there is such a swapper. *)
Theorem loading_swappers state :
  (∀ name,
     name ∈ selectLoadingSwappers swapperNames getEnabledSwappers state
     ↔ name ∈ selectEnabledSwappersIgnoringCrossAccountTrade swapperNames
                getEnabledSwappers (store state)
       ∧ (selectTradeQuotes (store state) !! name = None
          ∨ selectIsTradeQuoteApiQueryPending state !! name = Some true)
       ∧ Forall (fun quoteData => cachedSwapperName quoteData ≠ name)
                (tradeQuoteDisplayCache state))
  ∧ (selectIsAnyTradeQuoteLoading swapperNames getEnabledSwappers state = true
     ↔ selectHasUserEnteredAmount state = true
       ∧ ∃ name, name ∈ selectLoadingSwappers swapperNames getEnabledSwappers state).
Proof.
  split; [apply selectLoadingSwappers_elem|].
  unfold selectIsAnyTradeQuoteLoading. cbv zeta.
  rewrite andb_true_iff, Nat.ltb_lt.
  destruct (selectLoadingSwappers swapperNames getEnabledSwappers state) as [|name rest].
  - cbn. split; [intros [_ ?]; lia|]. intros [_ [name Hin]]. by apply elem_of_nil in Hin.
  - cbn. split.
    + intros [Hhas _]. split; [done|]. exists name. apply list_elem_of_here.
    + intros [Hhas _]. split; [done|lia].
Qed.

(** X13: some quote counts as loaded exactly when no amount is entered
    or an enabled swapper has a recorded response that holds a quote. *)
Theorem any_quote_loaded state :
  selectIsAnyTradeQuoteLoaded swapperNames getEnabledSwappers state = true
  ↔ selectHasUserEnteredAmount state = false
    ∨ ∃ name responses ident response,
        name ∈ selectEnabledSwappersIgnoringCrossAccountTrade swapperNames
                 getEnabledSwappers (store state)
        ∧ selectTradeQuotes (store state) !! name = Some responses
        ∧ responses !! ident = Some response
        ∧ is_Some (quote response).
Proof.
  unfold selectIsAnyTradeQuoteLoaded. cbv zeta.
  rewrite orb_true_iff, negb_true_iff, existsb_exists.
  apply or_iff_compat_l. split.
  - intros (flag & Hin & ->).
    apply list_elem_of_In, elem_of_Object_values in Hin as [name Hname].
    apply selectIsSwapperQuoteAvailable_iff in Hname
      as (Henabled & responses & ident & response & ? & ? & ?).
    eauto 10.
  - intros (name & responses & ident & response & Henabled & Hl & Hident & Hq).
    exists true. split; [|done].
    apply list_elem_of_In, elem_of_Object_values. exists name.
    apply selectIsSwapperQuoteAvailable_iff. eauto 10.
Qed.

End LoadingFacts.

(** ** The deduction of the first hop and the fees by hop index *)

Section DeductionFacts.

Variable swapperNames : list SwapperName.
Variable referenceValue : Asset -> BigNumber -> BigNumber.

(** X14: the deduction of the first hop is the sell amount of the
    quote in crypto precision when the sell asset of the hop is its own
    fee asset, and "0" when the fee asset is another asset or is not
    known; without a first hop it is "0" as well. *)
Theorem firstHopTradeDeduction state :
  (selectFirstHop swapperNames referenceValue state = None →
   selectFirstHopTradeDeductionCryptoPrecision swapperNames referenceValue state = bn 0)
  ∧ (∀ hop,
       selectFirstHop swapperNames referenceValue state = Some hop →
       (∀ feeAsset,
          selectFeeAssetById state !! assetId (sellAsset hop) = Some feeAsset →
          assetId feeAsset = assetId (sellAsset hop) →
          selectFirstHopTradeDeductionCryptoPrecision swapperNames referenceValue state
          = fromBaseUnit (sellAmountIncludingProtocolFeesCryptoBaseUnit hop)
              (precision (sellAsset hop)))
       ∧ (∀ feeAsset,
          selectFeeAssetById state !! assetId (sellAsset hop) = Some feeAsset →
          assetId feeAsset ≠ assetId (sellAsset hop) →
          selectFirstHopTradeDeductionCryptoPrecision swapperNames referenceValue state
          = bn 0)
       ∧ (selectFeeAssetById state !! assetId (sellAsset hop) = None →
          selectFirstHopTradeDeductionCryptoPrecision swapperNames referenceValue state
          = bn 0)).
Proof.
  unfold selectFirstHopTradeDeductionCryptoPrecision, selectQuoteSellAmountCryptoPrecision,
    selectQuoteSellAmountCryptoBaseUnit, selectFirstHopSellFeeAsset, selectFirstHopSellAsset.
  cbv zeta. split.
  - intros ->. by case_bool_decide.
  - intros hop ->. rewrite feeAssetOf_hop. cbn [fmap option_fmap option_map].
    split; [|split].
    + intros feeAsset -> Heq. cbn. rewrite Heq.
      by rewrite bool_decide_eq_true_2.
    + intros feeAsset -> Hne. cbn. rewrite bool_decide_eq_false_2; [done|].
      intros [= ?]. done.
    + intros ->. cbn. by rewrite bool_decide_eq_false_2.
Qed.


End DeductionFacts.

(** ** Addresses of Bitcoin Cash *)







Section BitcoinCashFacts.

Variable bchAssetId : string.


End BitcoinCashFacts.

(** ** The market service singleton *)

Section MarketServiceSingletonFacts.

Variable Provider : Type.
Variable MarketServiceManager : Type.
Variable ethereumMainnetProvider : Provider.
Variable newMarketServiceManager :
  MarketServiceManagerArgs Provider -> MarketServiceManager.

Lemma getMarketServiceManagers_set existing configs :
  getMarketServiceManagers Provider MarketServiceManager ethereumMainnetProvider
    newMarketServiceManager configs (Some existing)
  = (replicate (length configs) existing, Some existing).
Proof.
  induction configs as [|config configs IH]; [reflexivity|].
  cbn [getMarketServiceManagers getMarketServiceManager]. by rewrite IH.
Qed.

(** X17: [getMarketServiceManager] is a singleton.  The first call
    builds the manager from the configuration of that moment; every
    later call returns that same manager and ignores its own
    configuration, so a changed configuration is never picked up. *)
Theorem getMarketServiceManager_singleton config configs :
  let first :=
    newMarketServiceManager
      {| yearnChainReference := 1;
         provider := ethereumMainnetProvider;
         providerUrls :=
           {| jsonRpcProviderUrl := REACT_APP_ETHEREUM_NODE_URL config;
              unchainedEthereumHttpUrl := REACT_APP_UNCHAINED_ETHEREUM_HTTP_URL config;
              unchainedEthereumWsUrl := REACT_APP_UNCHAINED_ETHEREUM_WS_URL config |} |} in
  getMarketServiceManagers Provider MarketServiceManager ethereumMainnetProvider
    newMarketServiceManager (config :: configs) None
  = (replicate (S (length configs)) first, Some first).
Proof.
  cbv zeta. cbn [getMarketServiceManagers getMarketServiceManager].
  by rewrite getMarketServiceManagers_set.
Qed.

End MarketServiceSingletonFacts.

(** ** The wallet selection modal *)

Lemma includes_String_of (a b : string) (x : option string) :
  a ≠ "undefined" → b ≠ "undefined" →
  includes [a; b] (String_of x) = true ↔ x = Some a ∨ x = Some b.
Proof.
  intros Ha Hb. unfold includes, String_of. cbn [existsb].
  rewrite orb_false_r, orb_true_iff, !bool_decide_eq_true.
  destruct x as [kind|]; simpl; split; intros [H|H];
    first [congruence | left; congruence | right; congruence].
Qed.

(** X18: what the modal shows.  A wallet gets a button exactly when it
    is supported where the application runs and its feature flag, if
    it has one, is on.  In the mobile app that needs 'both' or 'app', in
    a mobile browser 'both' or 'browser', on the desktop anything but
    'app'; so a wallet with no [supportsMobile] shows on the desktop
    only, and an 'app' wallet in the mobile app only.  The demo wallet
    is never listed. *)
Theorem wallet_button_shown
    (isMobileApp isMobile isLedgerEnabled isCoinbaseEnabled isWalletConnectV2Enabled : bool)
    (walletType : KeyManager) (optionName : string) (supportsMobile : option string)
    (walletInfoName : option string) (keyManagers : list KeyManager) :
  (is_Some (WalletSelectItem isMobileApp isMobile isLedgerEnabled isCoinbaseEnabled
              isWalletConnectV2Enabled walletType optionName supportsMobile walletInfoName)
   ↔ isSupported isMobileApp isMobile supportsMobile = true
     ∧ (walletType = Ledger → isLedgerEnabled = true)
     ∧ (walletType = Coinbase → isCoinbaseEnabled = true)
     ∧ (walletType = WalletConnectV2 → isWalletConnectV2Enabled = true))
  ∧ (isSupported isMobileApp isMobile supportsMobile = true
     ↔ (isMobileApp = true ∧ (supportsMobile = Some "both" ∨ supportsMobile = Some "app"))
       ∨ (isMobileApp = false ∧ isMobile = true
          ∧ (supportsMobile = Some "both" ∨ supportsMobile = Some "browser"))
       ∨ (isMobileApp = false ∧ isMobile = false ∧ supportsMobile ≠ Some "app"))
  ∧ (isSupported isMobileApp isMobile None = true ↔ isMobileApp = false ∧ isMobile = false)
  ∧ (isSupported isMobileApp isMobile (Some "app") = true ↔ isMobileApp = true)
  ∧ (Demo ∉ modalWallets keyManagers)
  ∧ (∀ key, key ≠ Demo → (key ∈ modalWallets keyManagers ↔ key ∈ keyManagers)).
Proof.
  split; [|split; [|split; [|split; [|split]]]].
  - unfold WalletSelectItem.
    destruct (isSupported isMobileApp isMobile supportsMobile);
      destruct isLedgerEnabled, isCoinbaseEnabled, isWalletConnectV2Enabled;
      destruct walletType; cbn; split;
      try (intros [? ?]; done);
      try (intros _; repeat split; done);
      try (intros (? & H1 & H2 & H3); first [by specialize (H1 eq_refl)
                                            | by specialize (H2 eq_refl)
                                            | by specialize (H3 eq_refl)
                                            | done]);
      try (intros _; by eexists).
  - unfold isSupported.
    destruct isMobileApp, isMobile; rewrite ?includes_String_of by done;
      rewrite ?negb_true_iff, ?bool_decide_eq_false; intuition congruence.
  - unfold isSupported, includes, String_of. destruct isMobileApp, isMobile; cbn;
      split; try done; try (by intros [? ?]).
  - unfold isSupported, includes, String_of. destruct isMobileApp, isMobile; cbn;
      split; done.
  - unfold modalWallets. intros Hin%list_elem_of_filter. by destruct Hin.
  - intros key Hne. unfold modalWallets. rewrite list_elem_of_filter. tauto.
Qed.

(** ** The parser of Uniswap V2 transactions *)

Section UniV2Facts.

Variable WETH_CONTRACT_MAINNET : string.
Variable WETH_CONTRACT_ROPSTEN : string.
Variable UNI_V2_ROUTER_CONTRACT : string.
Variable UNI_V2_FOX_STAKING_REWARDS_CONTRACTS : list string.
Variable addLiquidityEthSigHash : string.
Variable removeLiquidityEthSigHash : string.
Variable stakeSigHash : string.
Variable exitSigHash : string.
Variable getSigHash : string -> option string.
Variable txInteractsWithContract : Tx -> string -> bool.
Variable abiParseTransaction : string -> option TransactionDescription.
Variable stakingRewardsParseTransaction : string -> option TransactionDescription.
Variable getAddress : string -> Result string string.
Variable toLowerCase : string -> string.
Variable solidityPackedKeccak256 : string -> string -> string.
Variable getCreate2Address : string -> string -> string -> string.
Variable toAssetId : string -> string -> string.
Variable readToken : string -> Result (Z * string * string) string.

Local Abbreviation parseUniV2' :=
  (parseUniV2 addLiquidityEthSigHash removeLiquidityEthSigHash getSigHash
     abiParseTransaction getAddress toLowerCase solidityPackedKeccak256 getCreate2Address
     toAssetId readToken).

(** X19: the pair address does not depend on the order of the two
    tokens: they are sorted before they are hashed. *)
Theorem pairFor_sym (tokenA tokenB : string) :
  pairFor solidityPackedKeccak256 getCreate2Address tokenA tokenB
  = pairFor solidityPackedKeccak256 getCreate2Address tokenB tokenA.
Proof.
  unfold pairFor, String.ltb. rewrite (String.compare_antisym tokenA tokenB).
  destruct (String.compare tokenB tokenA) eqn:Hcmp; cbn; try reflexivity.
  apply String.compare_eq_iff in Hcmp. by subst.
Qed.

(** The selector of a transaction is one of the two supported ones. *)
Lemma supported_sigHash (sigHash : option string) :
  existsb (fun hash => bool_decide (Some hash = sigHash))
          [addLiquidityEthSigHash; removeLiquidityEthSigHash] = true
  ↔ sigHash = Some addLiquidityEthSigHash ∨ sigHash = Some removeLiquidityEthSigHash.
Proof.
  cbn [existsb]. rewrite orb_false_r, orb_true_iff, !bool_decide_eq_true.
  split; intros [H|H]; auto.
Qed.

(** X20: [parseUniV2] returns nothing exactly when the transaction has
    no input data, its selector is neither that of [addLiquidityETH] nor
    that of [removeLiquidityETH], or the data cannot be decoded.  The
    last exit of the function, "no supported function detected", is
    never taken. *)
Theorem parseUniV2_nothing this tx :
  parseUniV2 addLiquidityEthSigHash removeLiquidityEthSigHash getSigHash
    abiParseTransaction getAddress toLowerCase solidityPackedKeccak256 getCreate2Address
    toAssetId readToken this tx
  = Ok None
  ↔ ∀ inputData,
      txInputData tx = Some inputData → inputData ≠ "" →
      getSigHash inputData = Some addLiquidityEthSigHash
      ∨ getSigHash inputData = Some removeLiquidityEthSigHash →
      abiParseTransaction inputData = None.
Proof.
  unfold parseUniV2.
  destruct (txInputData tx) as [inputData|]; [|split; [congruence|done]].
  cbn [truthy negb]. case_bool_decide as Hempty; cbn [negb].
  { split; [|done]. intros _ ? [= <-]. done. }
  destruct (existsb _ _) eqn:Hsupported; cbn [negb].
  2:{ split; [|done]. intros _ ? [= <-] _ Hsig%supported_sigHash. congruence. }
  apply supported_sigHash in Hsupported.
  destruct (abiParseTransaction inputData) as [decoded|] eqn:Hdecoded.
  2:{ split; [|done]. by intros _ ? [= <-]. }
  split.
  - intros Hnone. exfalso.
    destruct (negb (txConfirmations tx =? 0)); [done|].
    destruct (descriptionArgs decoded !! "token"); [|done].
    destruct (getAddress _); [|done].
    case_bool_decide as Hadd.
    + destruct (readToken _); [|done].
      destruct (descriptionArgs decoded !! "amountTokenDesired"); done.
    + case_bool_decide as Hremove; [|by destruct Hsupported].
      destruct (readToken _); [|done].
      destruct (descriptionArgs decoded !! "liquidity"); done.
  - intros Hall. specialize (Hall inputData eq_refl Hempty Hsupported). congruence.
Qed.



(** X22: an unconfirmed transaction that parses carries exactly one
    transfer: it goes from the sender of the transaction to the pair of
    the token and WETH, its only component is its total value, and its
    asset is the token for [addLiquidityETH] (the amount desired) and
    the pair token for [removeLiquidityETH] (the liquidity). *)
Theorem parseUniV2_unconfirmed this tx spec :
  txConfirmations tx = 0 →
  parseUniV2 addLiquidityEthSigHash removeLiquidityEthSigHash getSigHash
    abiParseTransaction getAddress toLowerCase solidityPackedKeccak256 getCreate2Address
    toAssetId readToken this tx
  = Ok (Some spec) →
  ∃ inputData decoded token tokenAddress transfer,
    txInputData tx = Some inputData
    ∧ abiParseTransaction inputData = Some decoded
    ∧ descriptionArgs decoded !! "token" = Some token
    ∧ getAddress (toLowerCase token) = Ok tokenAddress
    ∧ specificTransfers spec = Some [transfer]
    ∧ metadataMethod (specificData spec) = descriptionName decoded
    ∧ transferFrom transfer = txFrom tx
    ∧ transferTo transfer
      = pairFor solidityPackedKeccak256 getCreate2Address tokenAddress (wethContract this)
    ∧ transferComponents transfer = [transferTotalValue transfer]
    ∧ transferAssetId transfer
      = toAssetId (parserChainId this) (tokenContract (transferToken transfer))
    ∧ ((getSigHash inputData = Some addLiquidityEthSigHash
        ∧ tokenContract (transferToken transfer) = tokenAddress
        ∧ descriptionArgs decoded !! "amountTokenDesired"
          = Some (transferTotalValue transfer))
       ∨ (getSigHash inputData ≠ Some addLiquidityEthSigHash
          ∧ getSigHash inputData = Some removeLiquidityEthSigHash
          ∧ tokenContract (transferToken transfer)
            = pairFor solidityPackedKeccak256 getCreate2Address tokenAddress
                (wethContract this)
          ∧ descriptionArgs decoded !! "liquidity" = Some (transferTotalValue transfer))).
Proof.
  intros Hunconfirmed. unfold parseUniV2. rewrite Hunconfirmed. cbn [Z.eqb negb].
  destruct (txInputData tx) as [inputData|]; [|done].
  destruct (negb (truthy (Some inputData))); [done|].
  destruct (negb (existsb _ _)); [done|].
  destruct (abiParseTransaction inputData) as [decoded|] eqn:Hdecoded; [|done].
  destruct (descriptionArgs decoded !! "token") as [token|] eqn:Htoken; [|done].
  destruct (getAddress (toLowerCase token)) as [tokenAddress|] eqn:Haddress; [|done].
  case_bool_decide as Hadd.
  - destruct (readToken tokenAddress) as [[[decimals name] symbol]|]; [|done].
    destruct (descriptionArgs decoded !! "amountTokenDesired") as [value|] eqn:Hvalue;
      [|done].
    intros [= <-]. cbn. do 5 eexists. repeat (split; [reflexivity || eassumption|]).
    left. by repeat split.
  - case_bool_decide as Hremove; [|done].
    destruct (readToken _) as [[[decimals name] symbol]|]; [|done].
    destruct (descriptionArgs decoded !! "liquidity") as [value|] eqn:Hvalue; [|done].
    intros [= <-]. cbn. do 5 eexists. repeat (split; [reflexivity || eassumption|]).
    right. by repeat split.
Qed.


End UniV2Facts.

(** ** Decimal arithmetic *)

Lemma pow10_pos (n : nat) : 0 < 10 ^ Z.of_nat n.
Proof. apply Z.pow_pos_nonneg; lia. Qed.

Lemma pow10_add (a b : nat) : 10 ^ Z.of_nat (a + b) = 10 ^ Z.of_nat a * 10 ^ Z.of_nat b.
Proof. rewrite Nat2Z.inj_add. apply Z.pow_add_r; lia. Qed.

(** Dropping trailing zeros keeps the number. *)
Lemma normalise_spec (m : Z) (s : nat) :
  (scale (normalise m s) ≤ s)%nat
  ∧ mantissa (normalise m s) * 10 ^ Z.of_nat (s - scale (normalise m s)) = m.
Proof.
  revert m. induction s as [|s IH]; intros m; cbn [normalise].
  - cbn. split; [lia|]. lia.
  - destruct (m mod 10 =? 0) eqn:Hmod.
    + apply Z.eqb_eq in Hmod. destruct (IH (m / 10)) as [Hscale Hvalue].
      split; [lia|].
      replace (S s - scale (normalise (m / 10) s))%nat
        with (s - scale (normalise (m / 10) s) + 1)%nat by lia.
      rewrite pow10_add, Z.mul_assoc, Hvalue.
      change (10 ^ Z.of_nat 1) with 10.
      rewrite (Z.div_mod m 10) at 2 by lia. lia.
    + cbn [scale mantissa]. split; [lia|].
      rewrite Nat.sub_diag. cbn. lia.
Qed.

Lemma scaledTo_normalise (k : nat) (m : Z) (s : nat) :
  (s ≤ k)%nat → scaledTo k (normalise m s) = m * 10 ^ Z.of_nat (k - s).
Proof.
  intros Hk. destruct (normalise_spec m s) as [Hscale Hvalue]. unfold scaledTo.
  replace (k - scale (normalise m s))%nat
    with (s - scale (normalise m s) + (k - s))%nat by lia.
  by rewrite pow10_add, Z.mul_assoc, Hvalue.
Qed.

Lemma scaledTo_plus (k : nat) (x y : BigNumber) :
  (scale x ≤ k)%nat → (scale y ≤ k)%nat →
  (scale (bn_plus x y) ≤ Nat.max (scale x) (scale y))%nat
  ∧ scaledTo k (bn_plus x y) = scaledTo k x + scaledTo k y.
Proof.
  intros Hx Hy. unfold bn_plus. cbv zeta.
  set (s := Nat.max (scale x) (scale y)).
  split; [apply normalise_spec|].
  rewrite scaledTo_normalise by lia. unfold scaledTo.
  rewrite Z.mul_add_distr_r, <- !Z.mul_assoc, <- !pow10_add.
  f_equal; do 2 f_equal; lia.
Qed.

Lemma scaledTo_sign (k : nat) (x : BigNumber) :
  (0 < mantissa x ↔ 0 < scaledTo k x) ∧ (0 ≤ mantissa x ↔ 0 ≤ scaledTo k x).
Proof.
  unfold scaledTo. pose proof (pow10_pos (k - scale x)). split; split; nia.
Qed.

(** [x.lte(y)] compares the two numbers written with the same number
    of decimal places. *)
Lemma bn_lte_scaledTo (k : nat) (x y : BigNumber) :
  (scale x ≤ k)%nat → (scale y ≤ k)%nat →
  bn_lte x y = true ↔ scaledTo k x ≤ scaledTo k y.
Proof.
  intros Hx Hy. unfold bn_lte, bn_lt, bn_minus, bn_gt0.
  set (negated := mkBigNumber (- mantissa y) (scale y)).
  destruct (scaledTo_plus k x negated Hx Hy) as [_ Hplus].
  assert (Hneg : scaledTo k negated = - scaledTo k y)
    by (unfold scaledTo; cbn; lia).
  rewrite Hneg in Hplus.
  pose proof (proj1 (scaledTo_sign k (bn_plus x negated))) as Hsign.
  rewrite negb_true_iff, Z.ltb_ge. lia.
Qed.

Lemma normalise_nonneg (m : Z) (s : nat) : 0 ≤ m → 0 ≤ mantissa (normalise m s).
Proof.
  intros Hm. destruct (normalise_spec m s) as [_ Hvalue].
  pose proof (pow10_pos (s - scale (normalise m s))). nia.
Qed.

Section BorrowInputFacts.

Variable cryptoDepositAmount : option BigNumber.
Variable balanceCryptoBaseUnit : option BigNumber.
Variable collateralAssetPrecision : option nat.
Variable txFeeCryptoBaseUnit : option BigNumber.
Variable sweepTxFeeCryptoBaseUnit : option BigNumber.

(** X24: a balance that covers the deposit, the fee of the transaction
    and the fee of the sweep covers the deposit and the fee of the
    transaction, as long as the fee of the sweep is not negative.  So
    the form never reports sufficient funds for the larger amount and
    insufficient funds for the smaller one. *)
Theorem enough_for_sweep_enough_for_tx :
  0 ≤ mantissa (bnOrZero sweepTxFeeCryptoBaseUnit) →
  hasEnoughBalanceForTxPlusSweep cryptoDepositAmount balanceCryptoBaseUnit
    collateralAssetPrecision txFeeCryptoBaseUnit sweepTxFeeCryptoBaseUnit = true →
  hasEnoughBalanceForTx cryptoDepositAmount balanceCryptoBaseUnit collateralAssetPrecision
    txFeeCryptoBaseUnit = true.
Proof.
  unfold hasEnoughBalanceForTxPlusSweep, hasEnoughBalanceForTx. intros Hsweep.
  set (deposit := bnOrZero cryptoDepositAmount).
  set (fee := toCollateralPrecision collateralAssetPrecision (bnOrZero txFeeCryptoBaseUnit)).
  set (sweep :=
         toCollateralPrecision collateralAssetPrecision (bnOrZero sweepTxFeeCryptoBaseUnit)).
  set (available := amountAvailableCryptoPrecision balanceCryptoBaseUnit
                      collateralAssetPrecision).
  set (k := (scale deposit + scale fee + scale sweep + scale available)%nat).
  destruct (scaledTo_plus k deposit fee ltac:(lia) ltac:(lia)) as [Hscale1 Hplus1].
  destruct (scaledTo_plus k (bn_plus deposit fee) sweep ltac:(lia) ltac:(lia))
    as [Hscale2 Hplus2].
  rewrite (bn_lte_scaledTo k) by lia. rewrite (bn_lte_scaledTo k) by lia.
  rewrite Hplus2, Hplus1.
  assert (0 ≤ scaledTo k sweep); [|lia].
  apply scaledTo_sign. unfold sweep, toCollateralPrecision, fromBaseUnit.
  by apply normalise_nonneg.
Qed.

End BorrowInputFacts.

Section BorrowButtonFacts.

Variable cryptoDepositAmount : option BigNumber.
Variable balanceCryptoBaseUnit : option BigNumber.
Variable collateralAssetPrecision : option nat.
Variable txFeeCryptoBaseUnit : option BigNumber.
Variable sweepTxFeeCryptoBaseUnit : option BigNumber.
Variable isLendingQuoteLoading : bool.
Variable isLendingQuoteError : bool.
Variable lendingQuoteErrorMessage : string.
Variable isEstimatedFeesDataLoading : bool.

Local Abbreviation translation :=
  (quoteErrorTranslation cryptoDepositAmount balanceCryptoBaseUnit collateralAssetPrecision
     txFeeCryptoBaseUnit sweepTxFeeCryptoBaseUnit isLendingQuoteError
     lendingQuoteErrorMessage).

Local Abbreviation colour :=
  (buttonColorScheme cryptoDepositAmount balanceCryptoBaseUnit collateralAssetPrecision
     txFeeCryptoBaseUnit sweepTxFeeCryptoBaseUnit isLendingQuoteLoading isLendingQuoteError
     lendingQuoteErrorMessage isEstimatedFeesDataLoading).

Local Abbreviation disabled :=
  (buttonIsDisabled cryptoDepositAmount balanceCryptoBaseUnit collateralAssetPrecision
     txFeeCryptoBaseUnit sweepTxFeeCryptoBaseUnit isLendingQuoteLoading isLendingQuoteError
     lendingQuoteErrorMessage isEstimatedFeesDataLoading).

Local Abbreviation label :=
  (buttonLabel cryptoDepositAmount balanceCryptoBaseUnit collateralAssetPrecision
     txFeeCryptoBaseUnit sweepTxFeeCryptoBaseUnit isLendingQuoteError
     lendingQuoteErrorMessage).

(** X25: the button of the borrow form.  A red button is always
    disabled; the button is enabled only when nothing is loading, the
    quote has not failed and the funds suffice, and then it reads
    "lending.borrow"; insufficient funds are reported before any error
    of the quote, and an error of the quote is translated only when its
    message speaks of a fee that cannot be paid. *)
Theorem borrow_button :
  (colour = "red" → disabled = true)
  ∧ (disabled = false
     ↔ isLendingQuoteLoading = false ∧ isEstimatedFeesDataLoading = false
       ∧ isLendingQuoteError = false
       ∧ hasEnoughBalanceForTxPlusSweep cryptoDepositAmount balanceCryptoBaseUnit
           collateralAssetPrecision txFeeCryptoBaseUnit sweepTxFeeCryptoBaseUnit = true)
  ∧ (disabled = false → label = "lending.borrow" ∧ colour = "blue")
  ∧ (hasEnoughBalanceForTxPlusSweep cryptoDepositAmount balanceCryptoBaseUnit
       collateralAssetPrecision txFeeCryptoBaseUnit sweepTxFeeCryptoBaseUnit = false →
     translation = Some "common.insufficientFunds" ∧ label = "common.insufficientFunds")
  ∧ (translation = Some "trade.errors.amountTooSmallUnknownMinimum"
     ↔ hasEnoughBalanceForTxPlusSweep cryptoDepositAmount balanceCryptoBaseUnit
         collateralAssetPrecision txFeeCryptoBaseUnit sweepTxFeeCryptoBaseUnit = true
       ∧ isLendingQuoteError = true
       ∧ (containsString "not enough fee" lendingQuoteErrorMessage = true
          ∨ containsString "not enough to pay transaction fee" lendingQuoteErrorMessage
            = true)).
Proof.
  unfold buttonColorScheme, buttonIsDisabled, buttonLabel, quoteErrorTranslation.
  destruct (hasEnoughBalanceForTxPlusSweep _ _ _ _ _); cbn [negb].
  - destruct isLendingQuoteLoading, isEstimatedFeesDataLoading, isLendingQuoteError;
      destruct (containsString "not enough fee" lendingQuoteErrorMessage);
      destruct (containsString "not enough to pay transaction fee" lendingQuoteErrorMessage);
      cbn; intuition (try discriminate; try reflexivity).
  - destruct isLendingQuoteLoading, isEstimatedFeesDataLoading, isLendingQuoteError;
      cbn; intuition (try discriminate; try reflexivity).
Qed.

End BorrowButtonFacts.

(** ** No quotes available, none loaded *)

Section NoQuotesLoadedFacts.

Variable swapperNames : list SwapperName.
Variable getEnabledSwappers : gmap string bool -> bool -> SwapperName -> bool.

(** X26: whenever [selectTradeQuoteResponseErrors] reports an error, no
    swapper is flagged by [selectIsSwapperQuoteAvailable], and with an
    amount entered [selectIsAnyTradeQuoteLoaded] is false: the error of
    no quotes is never shown beside a loaded quote. *)
Theorem response_error_none_loaded (state : TradeStore) :
  selectTradeQuoteResponseErrors swapperNames getEnabledSwappers (store state) ≠ [] →
  (∀ name,
     selectIsSwapperQuoteAvailable swapperNames getEnabledSwappers (store state) !! name
     ≠ Some true)
  ∧ (selectHasUserEnteredAmount state = true →
     selectIsAnyTradeQuoteLoaded swapperNames getEnabledSwappers state = false).
Proof.
  intros Herrors.
  assert (Hempty : ∀ name responses,
            selectTradeQuotes (store state) !! name = Some responses → responses = ∅).
  { apply every_response_empty. unfold selectTradeQuoteResponseErrors in Herrors.
    cbv zeta in Herrors.
    destruct (negb _); [done|]. destruct (_ <? _)%nat; [done|].
    by destruct (forallb _ _). }
  assert (Hnone : ∀ name,
            selectIsSwapperQuoteAvailable swapperNames getEnabledSwappers (store state)
              !! name ≠ Some true).
  { intros name (_ & responses & ident & response & Hl & Hident & _)
      %selectIsSwapperQuoteAvailable_iff.
    apply Hempty in Hl. subst responses. by rewrite lookup_empty in Hident. }
  split; [exact Hnone|].
  intros Hentered. unfold selectIsAnyTradeQuoteLoaded. cbv zeta.
  rewrite Hentered. cbn [negb orb].
  destruct (existsb _ _) eqn:Hflag; [|done].
  apply existsb_exists in Hflag as (flag & Hin & ->).
  apply list_elem_of_In, elem_of_Object_values in Hin as [name Hname].
  by destruct (Hnone name).
Qed.

End NoQuotesLoadedFacts.

(** ** Scenarios *)

(** CowSwap, enabled in the samples, answered with a quote: both flags
    are set. *)
Lemma swapper_flags_witness :
  selectIsSwapperQuoteAvailable sampleSwapperNames sampleEnabledSwappers
    (sampleState sampleAggregate None None (Some (bn 1000))) !! CowSwap = Some true
  ∧ selectIsSwapperResponseAvailable sampleSwapperNames sampleEnabledSwappers
      (sampleState sampleAggregate None None (Some (bn 1000))) !! CowSwap = Some true.
Proof.
  assert (Hquoted :
    selectIsSwapperQuoteAvailable sampleSwapperNames sampleEnabledSwappers
      (sampleState sampleAggregate None None (Some (bn 1000))) !! CowSwap = Some true)
    by (vm_compute; reflexivity).
  split; [exact Hquoted|].
  exact (proj2 (proj2 (proj2 (proj2
           (swapper_flags sampleSwapperNames sampleEnabledSwappers
              (sampleState sampleAggregate None None (Some (bn 1000))) CowSwap))))
           Hquoted).
Defined.

(** No quote is confirmed and the ranking has a top route: the active
    swapper has a name. *)
Lemma selectActiveSwapperName_response_witness :
  is_Some (selectActiveSwapperName sampleSwapperNames sampleReferenceValue
             (sampleState sampleAggregate None None (Some (bn 1000)))).
Proof.
  apply (proj2 (proj2 (selectActiveSwapperName_response sampleSwapperNames
                         sampleReferenceValue
                         (sampleState sampleAggregate None None (Some (bn 1000)))))).
  - reflexivity.
  - vm_compute. eexists. reflexivity.
Defined.

(** The route of the bridge has one step: it is the first and the last
    hop, and there is no second hop. *)
Lemma selectLastHop_last_witness :
  selectFirstHop sampleSwapperNames sampleReferenceValue
    (sampleState bridgeAggregate None None (Some (bn 1000)))
  = Some (sampleStep ArbitrumBridge 2000000000000000000)
  ∧ selectLastHop sampleSwapperNames sampleReferenceValue
      (sampleState bridgeAggregate None None (Some (bn 1000)))
    = Some (sampleStep ArbitrumBridge 2000000000000000000)
  ∧ selectSecondHop sampleSwapperNames sampleReferenceValue
      (sampleState bridgeAggregate None None (Some (bn 1000)))
    = None.
Proof.
  apply (selectLastHop_last sampleSwapperNames sampleReferenceValue
           (sampleState bridgeAggregate None None (Some (bn 1000)))
           (sampleQuote "a" ArbitrumBridge 2000000000000000000)).
  - vm_compute. reflexivity.
  - reflexivity.
Defined.

(** With no fee asset known the selector throws and names USDC; with no
    route at all it returns nothing. *)
Lemma firstHopNetworkFeeUserCurrency_throws_witness :
  selectFirstHopNetworkFeeUserCurrencyPrecision sampleSwapperNames sampleReferenceValue
    (sampleStateWithoutFeeAssets bridgeAggregate)
  = Err "missing fee asset for assetId eip155:1/erc20:usdc"
  ∧ selectFirstHopNetworkFeeUserCurrencyPrecision sampleSwapperNames sampleReferenceValue
      (sampleState ∅ None None (Some (bn 1000)))
    = Ok None.
Proof.
  split.
  - apply (proj1 (firstHopNetworkFeeUserCurrency_throws sampleSwapperNames
                    sampleReferenceValue (sampleStateWithoutFeeAssets bridgeAggregate))).
    exists (sampleStep ArbitrumBridge 2000000000000000000).
    split; [vm_compute; reflexivity|]. split; vm_compute; reflexivity.
  - apply (proj2 (firstHopNetworkFeeUserCurrency_throws sampleSwapperNames
                    sampleReferenceValue (sampleState ∅ None None (Some (bn 1000))))).
    vm_compute. reflexivity.
Defined.

(** With no route the total is "0". *)
Lemma totalNetworkFeeUserCurrency_throws_witness :
  selectTotalNetworkFeeUserCurrencyPrecision sampleSwapperNames sampleReferenceValue
    (sampleState ∅ None None (Some (bn 1000)))
  = Ok (bn 0).
Proof.
  apply (proj2 (totalNetworkFeeUserCurrency_throws sampleSwapperNames sampleReferenceValue
                  (sampleState ∅ None None (Some (bn 1000))))).
  vm_compute. reflexivity.
Defined.

(** ETH on Ethereum mainnet is sold: a deposit of 15 minutes. *)
Lemma getTradeQuote_direction_witness :
  isArbitrumBridgeTradeQuote (Some sampleBridgeQuote) = true
  ∧ (direction sampleBridgeQuote = Some deposit
     ↔ chainId (in_sellAsset sampleInput) = ethChainId)
  ∧ (direction sampleBridgeQuote = Some withdrawal
     ↔ chainId (in_sellAsset sampleInput) ≠ ethChainId)
  ∧ ∃ hop, steps sampleBridgeQuote = [hop]
      ∧ source hop = ArbitrumBridge
      ∧ protocolFees (feeData hop) = ∅
      ∧ sellAsset hop = in_sellAsset sampleInput
      ∧ buyAsset hop = in_buyAsset sampleInput
      ∧ (direction sampleBridgeQuote = Some deposit →
         estimatedExecutionTimeMs hop = 900000)
      ∧ (direction sampleBridgeQuote = Some withdrawal →
         estimatedExecutionTimeMs hop = 604800000).
Proof.
  apply (getTradeQuote_direction sampleSlippage sampleInput (Ok ()) (inl sampleSwap)
           "quote-1" sampleBridgeQuote).
  reflexivity.
Defined.

(** A sell hash, a status without a buy hash, then [Success]. *)
Lemma success_after_sellTxHash_witness :
  ∃ txHash before,
    onEvents sampleTranslate 0 None
      (SellTxHash "0xsell" :: [Status None (Some "confirming")])
    = (txHash, before)
    ∧ truthy txHash = true
    ∧ onEvents sampleTranslate 0 None
        (SellTxHash "0xsell" :: [Status None (Some "confirming")] ++ [Success])
      = (txHash,
         before
         ++ [ Dispatch (setSwapTxMessage 0
                          (Some (sampleTranslate "trade.transactionSuccessful")));
              Dispatch (setSwapTxComplete 0);
              Resolve ]).
Proof.
  apply (success_after_sellTxHash sampleTranslate 0 "0xsell"
           [Status None (Some "confirming")]).
  - discriminate.
  - reflexivity.
Defined.

(** The bridge quote sells ETH, its own fee asset: the whole sell
    amount is deducted.  The sample route sells USDC, whose fee asset is
    ETH: nothing is deducted. *)
Lemma firstHopTradeDeduction_witness :
  selectFirstHopTradeDeductionCryptoPrecision sampleSwapperNames sampleReferenceValue
    (sampleState sampleBridgeAggregate None None (Some (bn 100)))
  = fromBaseUnit (bn 100) 18
  ∧ selectFirstHopTradeDeductionCryptoPrecision sampleSwapperNames sampleReferenceValue
      (sampleState bridgeAggregate None None (Some (bn 1000)))
    = bn 0.
Proof.
  split.
  - destruct (proj2 (firstHopTradeDeduction sampleSwapperNames sampleReferenceValue
                       (sampleState sampleBridgeAggregate None None (Some (bn 100))))
                (List.hd (sampleStep ArbitrumBridge 0) (steps sampleBridgeQuote))
                ltac:(vm_compute; reflexivity))
      as (Hsame & _ & _).
    apply (Hsame sampleEth); vm_compute; reflexivity.
  - destruct (proj2 (firstHopTradeDeduction sampleSwapperNames sampleReferenceValue
                       (sampleState bridgeAggregate None None (Some (bn 1000))))
                (sampleStep ArbitrumBridge 2000000000000000000)
                ltac:(vm_compute; reflexivity))
      as (_ & Hother & _).
    apply (Hother sampleEth); [vm_compute; reflexivity | discriminate].
Defined.




(** An unconfirmed [addLiquidityETH] of 100 of the token "0xfox": one
    transfer from the sender to the pair of the token and WETH. *)
Lemma parseUniV2_unconfirmed_witness :
  ∃ transfer,
    specificTransfers sampleUnconfirmedSpec = Some [transfer]
    ∧ transferFrom transfer = "0xsender"
    ∧ transferComponents transfer = [transferTotalValue transfer]
    ∧ transferAssetId transfer
      = sampleToAssetId "eip155:1" (tokenContract (transferToken transfer)).
Proof.
  destruct (parseUniV2_unconfirmed sampleAddLiquidityEthSigHash
              sampleRemoveLiquidityEthSigHash sampleGetSigHash sampleAbiParseTransaction
              sampleGetAddress sampleToLowerCase sampleSolidityPackedKeccak256
              sampleGetCreate2Address sampleToAssetId sampleReadToken sampleParser
              (sampleTx "0xf305d719aa" 0) sampleUnconfirmedSpec
              eq_refl ltac:(vm_compute; reflexivity))
    as (inputData & decoded & token & tokenAddress & transfer & _ & _ & _ & _
        & Htransfers & _ & Hfrom & _ & Hcomponents & HassetId & _).
  exists transfer. split; [exact Htransfers|]. split; [exact Hfrom|].
  split; [exact Hcomponents|exact HassetId].
Defined.


(** One ETH of balance, half an ETH deposited, fees of 21000 wei. *)
Lemma enough_for_sweep_enough_for_tx_witness :
  hasEnoughBalanceForTx (Some (mkBigNumber 5 1)) (Some (bn 1000000000000000000)) (Some 18%nat)
    (Some (bn 21000))
  = true.
Proof.
  apply (enough_for_sweep_enough_for_tx (Some (mkBigNumber 5 1))
           (Some (bn 1000000000000000000)) (Some 18%nat) (Some (bn 21000))
           (Some (bn 21000))).
  - vm_compute. discriminate.
  - vm_compute. reflexivity.
Defined.

(** A deposit of two with a balance of one: insufficient funds, whatever
    the quote says. *)
Lemma borrow_button_witness :
  quoteErrorTranslation (Some (bn 2)) (Some (bn 1)) (Some 0%nat) None None true
    "not enough fee"
  = Some "common.insufficientFunds"
  ∧ buttonLabel (Some (bn 2)) (Some (bn 1)) (Some 0%nat) None None true "not enough fee"
    = "common.insufficientFunds".
Proof.
  apply (proj1 (proj2 (proj2 (proj2
           (borrow_button (Some (bn 2)) (Some (bn 1)) (Some 0%nat) None None false true
              "not enough fee" false))))).
  vm_compute. reflexivity.
Defined.

(** Both enabled swappers answered with nothing: the error is reported
    and no quote counts as loaded. *)
Lemma response_error_none_loaded_witness :
  selectIsAnyTradeQuoteLoaded sampleSwapperNames sampleEnabledSwappers
    (sampleStore (sampleState emptyAggregate None None (Some (bn 1000))))
  = false.
Proof.
  apply (proj2 (response_error_none_loaded sampleSwapperNames sampleEnabledSwappers
                  (sampleStore (sampleState emptyAggregate None None (Some (bn 1000))))
                  ltac:(vm_compute; discriminate))).
  reflexivity.
Defined.
